(** * shared_resources.hpp: a heterogeneous container addressed by type

    A shallow embedding of [srs::type_list], the type-level set algebra of
    [srs::internals], the recursive [storage] class and the two facades
    [shared_resources] and [shared_references].

    Template metaprograms become boolean functions and list functions over
    the type [kind] of C++ types.  A constructor template becomes a function
    that takes the template arguments of its class (the target type list)
    next to its run-time arguments and returns an [option]: [None] means
    that the constructor is not viable for these argument types (a
    [requires]-clause fails or a member initialiser does not compile), so
    the program is rejected at build time. *)

From Equations Require Import Equations.
From stdpp Require Import base numbers option list.

Set Default Proof Using "Type".

(** ** Types used as kinds *)

(** The C++ types that occur as elements of a [type_list].  [Class n] stands
    for any further user type; [Pointer] and [reference_wrapper] are the two
    type constructors the header and its tests apply to kinds. *)
Inductive kind : Set :=
| Int
| Char
| Class (id : nat)
| Pointer (T : kind)
| reference_wrapper (T : kind).

#[global] Instance kind_eq_dec : EqDecision kind.
Proof. solve_decision. Defined.

(** [std::is_same_v<T, U>] *)
Definition is_same_v (T U : kind) : bool := bool_decide (T = U).

(** ** internals::has_no_duplicates (lines 30-52) *)

Equations? has_no_duplicates (Types : list kind) : bool by wf (length Types) lt :=
  has_no_duplicates [] := true;
  has_no_duplicates [T] := true;
  has_no_duplicates (Head :: Second :: Tail) :=
    negb (is_same_v Head Second)
    && has_no_duplicates (Head :: Tail)
    && has_no_duplicates (Second :: Tail).
Proof. all: simpl; lia. Qed.

(** [concept no_duplicates] (line 56) *)
Definition no_duplicates (Types : list kind) : bool := has_no_duplicates Types.

(** [type_list<Types...>] names a type only under [requires no_duplicates]
    (lines 65-71); [type_list_concept] (line 92) holds of exactly those. *)
Definition type_list_concept (Types : list kind) : bool := no_duplicates Types.

(** [type_list<Types...>::prepend<T>] (line 70) *)
Definition prepend (T : kind) (Types : list kind) : list kind := T :: Types.

(** ** internals::wrap_with_reference (lines 152-159) *)

Definition wrap_with_reference (Types : list kind) : list kind :=
  reference_wrapper <$> Types.

(** ** internals::remove_types (lines 166-193) *)

(** The two specialisations with a single [Exclude] (lines 175-187).  Both
    branches of [std::conditional_t] are formed from the same recursive
    result. *)
Fixpoint remove_type (List : list kind) (Exclude : kind) : list kind :=
  match List with
  | [] => []
  | Head :: Tail =>
      let type := remove_type Tail Exclude in
      if is_same_v Head Exclude then type else prepend Head type
  end.

(** The same specialisations with the constraint of [type_list] checked
    where line 186 forms [prepend<Head>]: [std::conditional_t] names both
    of its branches, whichever it selects. *)
Fixpoint remove_type_checked (List : list kind) (Exclude : kind) : option (list kind) :=
  match List with
  | [] => Some []
  | Head :: Tail =>
      type ← remove_type_checked Tail Exclude;
      if type_list_concept (prepend Head type) then
        Some (if is_same_v Head Exclude then type else prepend Head type)
      else None
  end.

(** The primary cases: no [Exclude] (lines 169-173), one [Exclude]
    (the specialisations above, which are the more specialised match) and
    [Head, Tail...] (lines 189-193). *)
Fixpoint remove_types (List : list kind) (Exclude : list kind) : list kind :=
  match Exclude with
  | [] => List
  | [Exclude] => remove_type List Exclude
  | Head :: Tail => remove_types (remove_type List Head) Tail
  end.

(** ** internals::contains and internals::contains_all (lines 198-238) *)

Fixpoint contains (T : kind) (U : list kind) : bool :=
  match U with
  | [] => false
  | Head :: Tail => is_same_v T Head || contains T Tail
  end.

(** [contains_concept<T, U>]: [U] has to name a [type_list]. *)
Definition contains_concept (T : kind) (U : list kind) : bool :=
  type_list_concept U && contains T U.

Fixpoint contains_all (T U : list kind) : bool :=
  match T with
  | [] => true
  | Head :: Tail => contains Head U && contains_all Tail U
  end.

Definition contains_all_concept (T U : list kind) : bool :=
  type_list_concept T && type_list_concept U && contains_all T U.

(** ** Values tagged by their static type *)

Section storage.

(** [V] is what a slot holds: a run-time value, or, for an object laid out
    in memory, the address of the member. *)
Context {V : Type}.

(** A function parameter pack [Args... args]: every argument comes with its
    static type. *)
Definition pack : Type := list (kind * V).

(** The template arguments [Args...] deduced from a pack. *)
Definition types_of (args : pack) : list kind := args.*1.

(** ** internals::get (lines 246-273), as the constructors reach it

    With one argument both overloads are candidates: the base case
    (lines 246-250) takes an argument of type [Target], and the recursive
    overload is constrained by [contains_concept<Target, type_list<Head>>];
    either returns [head].  With more arguments only the recursive overload
    (lines 261-273) takes part; its constraint names
    [type_list<Head, Tail...>].

    The constructors of [storage] call the lookup under a requires-clause
    that puts [Target] among the argument types, so that a single remaining
    argument is of type [Target].  A call with one argument of another
    type is not in the domain of this function; [get_converting] below
    covers it. *)
Fixpoint get (Target : kind) (args : pack) : option V :=
  match args with
  | [] => None
  | [(Head, head)] =>
      if is_same_v Head Target then Some head else None
  | (Head, head) :: tail =>
      if contains_concept Target (types_of args) then
        if is_same_v Target Head then Some head else get Target tail
      else None
  end.

(** ** internals::get (lines 246-273), called with any arguments

    The whole overload set.  Called with one argument of another type than
    [Target], the recursive overload is not viable, and the base case
    (lines 246-250) copy-initialises its parameter [Target head] from the
    argument: [convert Head Target head] is the result of the implicit
    conversion of [head] from [Head] to [Target], and [None] where the
    language has no such conversion. *)
Fixpoint get_converting (convert : kind → kind → V → option V)
    (Target : kind) (args : pack) : option V :=
  match args with
  | [] => None
  | [(Head, head)] =>
      if is_same_v Head Target then Some head else convert Head Target head
  | (Head, head) :: tail =>
      if contains_concept Target (types_of args) then
        if is_same_v Target Head then Some head
        else get_converting convert Target tail
      else None
  end.

(** ** internals::storage (lines 279-487)

    [storage<type_list<Ts...>>] holds one [data_] per element of [Ts...], in
    order: the specialisation for [Head, Tail...] holds [data_] and [rest_],
    the one for a single [T] holds [data_], the one for the empty list holds
    nothing.  A value of the class is the list of its members, each with the
    type of its slot; [list_of] reads back the template argument. *)
Definition storage : Type := list (kind * V).

Definition list_of (s : storage) : list kind := s.*1.

(** [storage::get<U>] (both the const and the non-const overload): lines
    329-346 for the single slot, under [requires std::same_as<T, U>], and
    lines 429-458 for [Head, Tail...].  The empty storage has no member
    [get]. *)
Fixpoint storage_get (U : kind) (s : storage) : option V :=
  match s with
  | [] => None
  | [(T, data_)] => if is_same_v T U then Some data_ else None
  | (Head, data_) :: rest_ =>
      if is_same_v Head U then Some data_ else storage_get U rest_
  end.

(** [storage::get_head] (lines 357-368 and 469-480) *)
Definition get_head (Head : kind) (a b : storage) : option V :=
  if contains Head (list_of a) then storage_get Head a else storage_get Head b.

(** The constructor template from arguments: lines 301-306 for a single
    slot, lines 401-406 for [Head, Tail...].  [storage<type_list<>>] has no
    such constructor; it is only made from an empty pack. *)
Fixpoint storage_from_args (List : list kind) (args : pack) : option storage :=
  match List with
  | [] => if args is [] then Some [] else None
  | [T] =>
      if contains_concept T (types_of args) then
        data_ ← get T args; Some [(T, data_)]
      else None
  | Head :: Tail =>
      if contains_all_concept List (types_of args) then
        data_ ← get Head args;
        rest_ ← storage_from_args Tail args;
        Some ((Head, data_) :: rest_)
      else None
  end.

(** Direct initialisation [storage<type_list<List...>>(other)] from one
    other storage.  The two facades only call it with an [other] of the
    same type, which the implicit copy constructor takes.  For an [other] of
    another type the only candidate is the constructor template of lines
    389-394, which the specialisation for [Head, Tail...] alone declares;
    its [rest_(other)] is again such an initialisation.  (Kinds are not
    themselves storages, so the constructors from arguments do not take
    part.) *)
Fixpoint storage_from_storage (List : list kind) (other : storage) : option storage :=
  if bool_decide (list_of other = List) then Some other
  else
    match List with
    | [] => None
    | [T] => None
    | Head :: Tail =>
        if contains_all_concept List (list_of other) then
          data_ ← storage_get Head other;
          rest_ ← storage_from_storage Tail other;
          Some ((Head, data_) :: rest_)
        else None
    end.

(** The constructor template that combines two storages: lines 315-320 for
    a single slot, lines 415-420 for [Head, Tail...].  [storage<type_list<>>]
    has no constructor of two arguments. *)
Fixpoint storage_merge (List : list kind) (a b : storage) : option storage :=
  match List with
  | [] => None
  | [T] =>
      if contains_concept T (list_of a) || contains_concept T (list_of b) then
        data_ ← get_head T a b; Some [(T, data_)]
      else None
  | Head :: Tail =>
      if contains_concept Head (list_of a) || contains_concept Head (list_of b) then
        data_ ← get_head Head a b;
        rest_ ← storage_merge Tail a b;
        Some ((Head, data_) :: rest_)
      else None
  end.

End storage.

Arguments pack : clear implicits.
Arguments storage : clear implicits.

(** ** shared_resources (lines 515-625) *)

(** An object of class [shared_resources<List, Exclude...>]: its template
    arguments and its only member [data_] (line 605). *)
Record shared_resources (V : Type) : Type := Build_shared_resources {
  sr_List : list kind;
  sr_Exclude : list kind;
  data_ : storage V
}.

Arguments Build_shared_resources {V} _ _ _.
Arguments sr_List {V} _.
Arguments sr_Exclude {V} _.
Arguments data_ {V} _.

(** [using list = remove_types<List, Exclude...>::type] (line 520): the
    effective type list. *)
Definition sr_list {V} (c : shared_resources V) : list kind :=
  remove_types (sr_List c) (sr_Exclude c).

(** What the class template guarantees of every object: [List] is a
    [type_list] and [data_] is a [storage<list>]. *)
Definition sr_wf {V} (c : shared_resources V) : Prop :=
  type_list_concept (sr_List c) = true ∧ list_of (data_ c) = sr_list c.

Section shared_resources.

Context {V : Type}.

(** The constructor template from arguments (lines 533-538).  The
    defaulted default constructor (line 526), which leaves the members
    default-initialised, is not modelled. *)
Definition shared_resources_from_args
    (List Exclude : list kind) (args : pack V) : option (shared_resources V) :=
  let list := remove_types List Exclude in
  if type_list_concept List && contains_all_concept list (types_of args) then
    data_ ← storage_from_args list args;
    Some (Build_shared_resources List Exclude data_)
  else None.

(** The copy constructor and the converting constructor template (lines
    544 and 558-563): [data_] is copied from a storage of the same type. *)
Definition shared_resources_convert
    (List Exclude : list kind) (other : shared_resources V)
    : option (shared_resources V) :=
  if type_list_concept List
     && bool_decide (remove_types List Exclude = sr_list other) then
    Some (Build_shared_resources List Exclude (data_ other))
  else None.

(** [create_storage] (lines 615-620) *)
Definition create_storage
    (list : list kind) (other : storage V) (args : pack V) : option (storage V) :=
  add ← storage_from_args (types_of args) args;
  storage_merge list other add.

(** The constructor template from another container and additional
    arguments (lines 572-576). *)
Definition shared_resources_extend
    (List Exclude : list kind) (other : shared_resources V) (args : pack V)
    : option (shared_resources V) :=
  if type_list_concept List then
    data_ ← create_storage (remove_types List Exclude) (data_ other) args;
    Some (Build_shared_resources List Exclude data_)
  else None.

(** Direct initialisation [shared_resources<List, Exclude...>(other)] from
    one container: the copy or converting constructor when it is viable (it
    is the more specialised candidate), otherwise the constructor of lines
    572-576 with an empty [Args...]. *)
Definition shared_resources_from_other
    (List Exclude : list kind) (other : shared_resources V)
    : option (shared_resources V) :=
  match shared_resources_convert List Exclude other with
  | Some c => Some c
  | None => shared_resources_extend List Exclude other []
  end.

(** [shared_resources::get<U>] (lines 583-598) *)
Definition shared_resources_get (U : kind) (c : shared_resources V) : option V :=
  storage_get U (data_ c).

End shared_resources.

(** Direct initialisation from a container and additional arguments, as
    overload resolution settles it. *)
Definition shared_resources_init {V}
    (List Exclude : list kind) (other : shared_resources V) (args : pack V)
    : option (shared_resources V) :=
  match args with
  | [] => shared_resources_from_other List Exclude other
  | _ => shared_resources_extend List Exclude other args
  end.

(** ** Run-time values and memory *)

(** An address; a reference [U&] is the address of the object it is bound
    to. *)
Abbreviation loc := nat (only parsing).

(** What an object of a kind holds: a pointer and a
    [std::reference_wrapper] hold an address, anything else is opaque and
    told apart by a number. *)
Inductive value : Set :=
| Scalar (n : Z)
| Address (l : loc).

(** The objects of the program, variables and members alike, one cell per
    object; cell [l] is the object at address [l].  Objects are only ever
    added. *)
Abbreviation memory := (list value) (only parsing).

Definition read (m : memory) (l : loc) : option value := m !! l.

(** Assignment through a reference. *)
Definition write (m : memory) (l : loc) (v : value) : memory := <[l := v]> m.

(** Reading the variables passed by value or by [const&]. *)
Definition load (m : memory) (vars : pack loc) : option (pack value) :=
  mapM (λ var, v ← read m var.2; Some (var.1, v)) vars.

(** *** Containers as objects

    A [shared_resources loc] gives the address of every [data_] member of a
    container that lives in memory (lines 371, 483 and 605: the members are
    held by value, one after the other); [shared_resources::get<U>] on it
    is the reference to the member that lines 331-334 and 430-440
    return. *)
Fixpoint place (base : loc) (s : storage value) : storage loc :=
  match s with
  | [] => []
  | (T, _) :: rest_ => (T, base) :: place (S base) rest_
  end.

(** A new object with the given members: they are copied into cells of
    their own. *)
Definition new_object (m : memory) (c : shared_resources value)
    : shared_resources loc * memory :=
  (Build_shared_resources (sr_List c) (sr_Exclude c) (place (length m) (data_ c)),
   m ++ (data_ c).*2).

(** The members of an object, read from memory. *)
Definition contents (m : memory) (o : shared_resources loc)
    : option (shared_resources value) :=
  data_ ← load m (data_ o);
  Some (Build_shared_resources (sr_List o) (sr_Exclude o) data_).

(** The addresses an object occupies. *)
Definition cells (o : shared_resources loc) : list loc := (data_ o).*2.

(** [srs::shared_resources<List, Exclude...> x(vars...);] (lines 533-538):
    the arguments are taken by value. *)
Definition shared_resources_declare
    (List Exclude : list kind) (vars : pack loc) (m : memory)
    : option (shared_resources loc * memory) :=
  args ← load m vars;
  c ← shared_resources_from_args List Exclude args;
  Some (new_object m c).

(** [srs::shared_resources<List, Exclude...> x(other, vars...);] *)
Definition shared_resources_declare_from
    (List Exclude : list kind) (other : shared_resources loc) (vars : pack loc)
    (m : memory) : option (shared_resources loc * memory) :=
  src ← contents m other;
  args ← load m vars;
  c ← shared_resources_init List Exclude src args;
  Some (new_object m c).

(** ** shared_references (lines 650-707) *)

(** An object of class [shared_references<List, Exclude...>]: its template
    arguments and its member [data_] (line 702), a
    [shared_resources<wrapped_list, std::reference_wrapper<Exclude>...>]. *)
Record shared_references (V : Type) : Type := Build_shared_references {
  sf_List : list kind;
  sf_Exclude : list kind;
  sf_data : shared_resources V
}.

Arguments Build_shared_references {V} _ _ _.
Arguments sf_List {V} _.
Arguments sf_Exclude {V} _.
Arguments sf_data {V} _.

(** [using list] (line 655) *)
Definition sf_list {V} (r : shared_references V) : list kind :=
  remove_types (sf_List r) (sf_Exclude r).

(** What the class template guarantees of every object: [Exclude...] forms
    a [type_list], [data_] is a container over the wrapped lists, and its
    slots, being [std::reference_wrapper]s, hold addresses. *)
Definition sf_wf (r : shared_references value) : Prop :=
  type_list_concept (sf_Exclude r) = true
  ∧ sr_wf (sf_data r)
  ∧ sr_List (sf_data r) = wrap_with_reference (sf_List r)
  ∧ sr_Exclude (sf_data r) = wrap_with_reference (sf_Exclude r)
  ∧ Forall (λ slot, ∃ l, slot.2 = Address l) (data_ (sf_data r)).

(** [std::reference_wrapper(args)...] (lines 666 and 679) *)
Definition wrap_args (args : pack loc) : pack value :=
  (λ arg, (reference_wrapper arg.1, Address arg.2)) <$> args.

(** The type of [data_] (lines 696-702) is formed from
    [type_list<Exclude...>], so that [Exclude...] has to be free of
    duplicates too. *)
Definition shared_references_class (List Exclude : list kind) : bool :=
  type_list_concept List && type_list_concept Exclude.

(** The constructor template from variables (lines 663-668) *)
Definition shared_references_from_args
    (List Exclude : list kind) (args : pack loc) : option (shared_references value) :=
  let list := remove_types List Exclude in
  if shared_references_class List Exclude
     && contains_all_concept list (types_of args) then
    data_ ← shared_resources_from_args
              (wrap_with_reference List) (wrap_with_reference Exclude) (wrap_args args);
    Some (Build_shared_references List Exclude data_)
  else None.

(** The constructor template from another container and additional
    variables (lines 677-681), when it is the one that runs *)
Definition shared_references_extend
    (List Exclude : list kind) (other : shared_references value) (args : pack loc)
    : option (shared_references value) :=
  if shared_references_class List Exclude then
    data_ ← shared_resources_init
              (wrap_with_reference List) (wrap_with_reference Exclude)
              (sf_data other) (wrap_args args);
    Some (Build_shared_references List Exclude data_)
  else None.

(** Direct initialisation [shared_references<List, Exclude...> x(other,
    vars...)] as overload resolution settles it.  The constructor of lines
    663-668 is a candidate too, with [Args...] deduced as the type of
    [other] followed by the types of the variables; a container type is
    none of the kinds, so that its constraint is the one on the variables
    alone.  When [other] is a non-const lvalue ([lvalue]), its [Args&]
    binds [other] better than the [Other const&] of lines 677-681, and it is
    selected whenever it is viable: every slot is then looked up among the
    wrapped arguments, where only the variables have a type of the list, and
    [other] is not used.  Its member initialiser passes the pack, which is
    not empty, to [data_], and an empty storage takes no argument.  For a
    const or temporary [other], or variables that do not cover the
    effective list, the constructor of lines 677-681 runs. *)
Definition shared_references_init
    (lvalue : bool) (List Exclude : list kind) (other : shared_references value)
    (vars : pack loc) : option (shared_references value) :=
  if lvalue && contains_all_concept (remove_types List Exclude) (types_of vars) then
    match remove_types List Exclude with
    | [] => None
    | _ => shared_references_from_args List Exclude vars
    end
  else shared_references_extend List Exclude other vars.

(** [shared_references::get<U>] (lines 688-692), on a container whose
    members are given: the address held by the wrapper of kind [U]. *)
Definition shared_references_get (U : kind) (r : shared_references value) : option loc :=
  w ← shared_resources_get (reference_wrapper U) (sf_data r);
  match w with
  | Address l => Some l
  | Scalar _ => None
  end.

(** *** Reference containers as objects *)

Definition new_references (m : memory) (r : shared_references value)
    : shared_references loc * memory :=
  let '(data_, m') := new_object m (sf_data r) in
  (Build_shared_references (sf_List r) (sf_Exclude r) data_, m').

Definition references_contents (m : memory) (o : shared_references loc)
    : option (shared_references value) :=
  data_ ← contents m (sf_data o);
  Some (Build_shared_references (sf_List o) (sf_Exclude o) data_).

(** [shared_references::get<U>] on a container in memory *)
Definition references_get (U : kind) (m : memory) (o : shared_references loc)
    : option loc :=
  r ← references_contents m o; shared_references_get U r.

(** [srs::shared_references<List, Exclude...> x(vars...);] *)
Definition shared_references_declare
    (List Exclude : list kind) (vars : pack loc) (m : memory)
    : option (shared_references loc * memory) :=
  r ← shared_references_from_args List Exclude vars;
  Some (new_references m r).

(** [srs::shared_references<List, Exclude...> x(other, vars...);], where
    [lvalue] tells whether the variable [other] is not declared const. *)
Definition shared_references_declare_from
    (lvalue : bool) (List Exclude : list kind) (other : shared_references loc)
    (vars : pack loc) (m : memory) : option (shared_references loc * memory) :=
  src ← references_contents m other;
  r ← shared_references_init lvalue List Exclude src vars;
  Some (new_references m r).

(** [auto copy(x);]: the implicit copy constructor copies [data_]. *)
Definition shared_references_copy (o : shared_references loc) (m : memory)
    : option (shared_references loc * memory) :=
  r ← references_contents m o;
  Some (new_references m r).

(** ** Vocabulary of the statements below *)

(** A storage whose every slot [K] holds [f K]. *)
Definition filled_by {V} (f : kind → option V) (List : list kind) (s : storage V) : Prop :=
  Forall2 (λ K slot, slot.1 = K ∧ f K = Some slot.2) List s.

(** Memories that hold the same in the given cells. *)
Definition agree_on (ls : list loc) (m m' : memory) : Prop :=
  ∀ l, l ∈ ls → read m' l = read m l.

(** ** The fixtures of tests/shared_resources.cpp (lines 4-6) *)

Definition all : list kind := [Int; Char; Pointer Int; Pointer Char].
Definition shuffled : list kind := [Pointer Char; Int; Char; Pointer Int].
Definition extra : list kind :=
  [Int; Pointer Char; Pointer (Pointer Char); Pointer Int; Char].

(** The variables of the tests: [a] at 0, [b] at 1, [*c] at 2, [c] at 3,
    [*d] at 4, [d] at 5. *)
Definition test_memory : memory :=
  [Scalar 1; Scalar 97; Scalar 2; Address 2; Scalar 98; Address 4].


(** * Properties *)

(** ** The test suite, replayed on the model *)

Example has_no_duplicates_ex1 :
  has_no_duplicates [Int; Char; Pointer Int; Pointer Char] = true.
Proof. reflexivity. Qed.

Example has_no_duplicates_ex2 :
  has_no_duplicates [Int; Char; Pointer Int; Int] = false.
Proof. reflexivity. Qed.

(** [TEST(shared_resources_test, get)], on values *)
Example test_get :
  (c ← shared_resources_from_args all [] [(Pointer Int, 20); (Char, 97); (Pointer Char, 30); (Int, 1)];
   Some (shared_resources_get Int c, shared_resources_get Char c,
         shared_resources_get (Pointer Int) c, shared_resources_get (Pointer Char) c))
  = Some (Some 1, Some 97, Some 20, Some 30).
Proof. reflexivity. Qed.

(** [TEST(shared_resources_test, convert)] *)
Example test_convert :
  (int_resources ← shared_resources_from_args all [Int] [(Pointer Int, 20); (Char, 97); (Pointer Char, 30)];
   resources ← shared_resources_init all [] int_resources [(Int, 1)];
   charp_resources ← shared_resources_init all [Pointer Char] int_resources [(Int, 1)];
   shuffled_resources ← shared_resources_init shuffled [] int_resources [(Int, 1)];
   extra_int_resources ← shared_resources_init extra [Pointer (Pointer Char); Int] int_resources [];
   extra_resources ← shared_resources_init extra [Pointer (Pointer Char)] int_resources [(Int, 1)];
   Some (shared_resources_get Int resources,
         shared_resources_get Int charp_resources, shared_resources_get Char charp_resources,
         shared_resources_get Int shuffled_resources, shared_resources_get Char shuffled_resources,
         shared_resources_get Char extra_int_resources,
         shared_resources_get Int extra_resources))
  = Some (Some 1, Some 1, Some 97, Some 1, Some 97, Some 97, Some 1).
Proof. reflexivity. Qed.

(** [TEST(shared_resources_test, get)], with the container in memory *)
Example test_get_in_memory :
  ('(resources, m1) ← shared_resources_declare all []
       [(Pointer Int, 3); (Char, 1); (Pointer Char, 5); (Int, 0)] test_memory;
   r_int ← shared_resources_get Int resources;
   r_char ← shared_resources_get Char resources;
   r_intp ← shared_resources_get (Pointer Int) resources;
   intp ← read m1 r_intp;
   match intp with
   | Address p =>
       let m2 := write m1 p (Scalar 3) in
       let m3 := write m2 r_char (Scalar 99) in
       Some (read m1 r_int, read m1 r_char, read m1 p,
             read m2 2, read m3 r_char, read m3 1)
   | _ => None
   end)
  = Some (Some (Scalar 1), Some (Scalar 97), Some (Scalar 2),
          Some (Scalar 3), Some (Scalar 99), Some (Scalar 97)).
Proof. reflexivity. Qed.

(** [TEST(shared_resources_test, references)] *)
Example test_references :
  ('(int_references, m1) ← shared_references_declare all [Int]
       [(Pointer Int, 3); (Char, 1); (Pointer Char, 5)] test_memory;
   r_char ← references_get Char m1 int_references;
   '(references, m2) ← shared_references_declare_from true all []
       int_references [(Int, 0)] m1;
   r_int ← references_get Int m2 references;
   r_char' ← references_get Char m2 references;
   let m3 := write m2 r_char' (Scalar 99) in
   '(copy, m4) ← shared_references_copy references m3;
   c_int ← references_get Int m4 copy;
   c_char ← references_get Char m4 copy;
   Some (read m1 r_char, read m2 r_int, read m3 1, read m4 c_int, read m4 c_char))
  = Some (Some (Scalar 97), Some (Scalar 1), Some (Scalar 99),
          Some (Scalar 1), Some (Scalar 99)).
Proof. reflexivity. Qed.

(** ** The type-level set algebra *)

Lemma is_same_v_true T U : is_same_v T U = true ↔ T = U.
Proof. unfold is_same_v. apply bool_decide_eq_true. Qed.

Lemma is_same_v_false T U : is_same_v T U = false ↔ T ≠ U.
Proof. unfold is_same_v. apply bool_decide_eq_false. Qed.

Lemma is_same_v_refl T : is_same_v T T = true.
Proof. by apply is_same_v_true. Qed.

Lemma has_no_duplicates_cons2 Head Second Tail :
  has_no_duplicates (Head :: Second :: Tail)
  = negb (is_same_v Head Second)
    && has_no_duplicates (Head :: Tail)
    && has_no_duplicates (Second :: Tail).
Proof. by simp has_no_duplicates. Qed.

Lemma has_no_duplicates_NoDup Types :
  has_no_duplicates Types = true ↔ NoDup Types.
Proof.
  funelim (has_no_duplicates Types).
  - split; [constructor | done].
  - split; [intros _; apply NoDup_singleton | done].
  - rewrite !andb_true_iff, negb_true_iff, is_same_v_false.
    match goal with
    | IH1 : _ ↔ NoDup (Head :: Tail), IH2 : _ ↔ NoDup (Second :: Tail) |- _ =>
        rewrite IH1, IH2
    end.
    rewrite !NoDup_cons, !not_elem_of_cons. tauto.
Qed.

Lemma type_list_concept_NoDup Types :
  type_list_concept Types = true ↔ NoDup Types.
Proof. apply has_no_duplicates_NoDup. Qed.

Lemma contains_elem_of T U : contains T U = true ↔ T ∈ U.
Proof.
  induction U as [|Head Tail IH]; simpl.
  - split; [done | by intros ?%elem_of_nil].
  - rewrite orb_true_iff, is_same_v_true, IH, elem_of_cons. tauto.
Qed.

Lemma contains_not_elem_of T U : contains T U = false ↔ T ∉ U.
Proof. rewrite <-contains_elem_of. by destruct (contains T U). Qed.

Lemma contains_concept_spec T U :
  contains_concept T U = true ↔ NoDup U ∧ T ∈ U.
Proof.
  unfold contains_concept.
  by rewrite andb_true_iff, type_list_concept_NoDup, contains_elem_of.
Qed.

Lemma contains_all_spec T U :
  contains_all T U = true ↔ ∀ K, K ∈ T → K ∈ U.
Proof.
  induction T as [|Head Tail IH]; simpl.
  - split; [by intros _ K ?%elem_of_nil | done].
  - rewrite andb_true_iff, contains_elem_of, IH. split.
    + intros [? ?] K [->|?]%elem_of_cons; auto.
    + intros H. split; [apply H; left | intros K ?; apply H; by right].
Qed.

Lemma contains_all_concept_spec T U :
  contains_all_concept T U = true ↔ NoDup T ∧ NoDup U ∧ ∀ K, K ∈ T → K ∈ U.
Proof.
  unfold contains_all_concept.
  rewrite !andb_true_iff, !type_list_concept_NoDup, contains_all_spec. tauto.
Qed.

Lemma remove_type_filter List Exclude :
  remove_type List Exclude = filter (λ K, K ≠ Exclude) List.
Proof.
  induction List as [|Head Tail IH]; simpl; [done|].
  rewrite IH. unfold prepend.
  destruct (is_same_v Head Exclude) eqn:E.
  - apply is_same_v_true in E. by rewrite filter_cons_False by auto.
  - apply is_same_v_false in E. by rewrite filter_cons_True.
Qed.

Lemma remove_types_foldl List Exclude :
  remove_types List Exclude = foldl remove_type List Exclude.
Proof.
  revert List. induction Exclude as [|Head Tail IH]; intros List; [done|].
  destruct Tail as [|Second Tail]; [done|].
  change (remove_types List (Head :: Second :: Tail))
    with (remove_types (remove_type List Head) (Second :: Tail)).
  by rewrite IH.
Qed.

Lemma elem_of_remove_type K List Exclude :
  K ∈ remove_type List Exclude ↔ K ∈ List ∧ K ≠ Exclude.
Proof. rewrite remove_type_filter, list_elem_of_filter. tauto. Qed.

Lemma elem_of_remove_types K List Exclude :
  K ∈ remove_types List Exclude ↔ K ∈ List ∧ K ∉ Exclude.
Proof.
  rewrite remove_types_foldl. revert List.
  induction Exclude as [|Head Tail IH]; intros List; simpl.
  - rewrite elem_of_nil. tauto.
  - rewrite IH, elem_of_remove_type, not_elem_of_cons. tauto.
Qed.

Lemma NoDup_remove_type List Exclude :
  NoDup List → NoDup (remove_type List Exclude).
Proof. rewrite remove_type_filter. apply NoDup_filter. Qed.

Lemma NoDup_remove_types List Exclude :
  NoDup List → NoDup (remove_types List Exclude).
Proof.
  rewrite remove_types_foldl. revert List.
  induction Exclude as [|Head Tail IH]; intros List HL; simpl; [done|].
  by apply IH, NoDup_remove_type.
Qed.

(** C7: [has_no_duplicates] accepts the empty and the one-element
    sequences, is otherwise the conjunction of "first differs from second"
    with the checks on (first, tail) and on (second, tail), and accepts
    exactly the sequences whose elements are pairwise distinct: no kind
    occurs at two different positions, adjacent or not. *)
Theorem has_no_duplicates_pairwise_distinct :
  has_no_duplicates [] = true
  ∧ (∀ T, has_no_duplicates [T] = true)
  ∧ (∀ Head Second Tail,
       has_no_duplicates (Head :: Second :: Tail)
       = negb (is_same_v Head Second)
         && has_no_duplicates (Head :: Tail)
         && has_no_duplicates (Second :: Tail))
  ∧ (∀ Types,
       has_no_duplicates Types = true
       ↔ ∀ i j T, Types !! i = Some T → Types !! j = Some T → i = j).
Proof.
  split_and!.
  - by simp has_no_duplicates.
  - intros T. by simp has_no_duplicates.
  - apply has_no_duplicates_cons2.
  - intros Types. rewrite has_no_duplicates_NoDup. apply NoDup_alt.
Qed.

(** C8: [remove_types] folds the single-type removal over [Exclude...] from
    left to right, and removing one type keeps exactly the entries that
    differ from it, in their original order. *)
Theorem remove_types_fold_filter :
  (∀ S E, remove_types S E = foldl remove_type S E)
  ∧ (∀ S e, remove_type S e = filter (λ K, K ≠ e) S).
Proof. split; [apply remove_types_foldl | apply remove_type_filter]. Qed.

(** ** Lookup among arguments and in a storage *)

Section storage_facts.

Context {V : Type}.
Implicit Types (args : pack V) (a b s : storage V) (K T U : kind).

(** One equation covers both overloads of [internals::get]. *)
Lemma get_cons Target Head (head : V) tail :
  get Target ((Head, head) :: tail)
  = if contains_concept Target (Head :: types_of tail) then
      if is_same_v Target Head then Some head else get Target tail
    else None.
Proof.
  destruct tail as [|[Second second] tail]; [|done].
  simpl. unfold contains_concept, type_list_concept, no_duplicates.
  simp has_no_duplicates. simpl. rewrite orb_false_r.
  destruct (is_same_v Target Head) eqn:E.
  - apply is_same_v_true in E as ->. by rewrite is_same_v_refl.
  - apply is_same_v_false in E.
    by rewrite (proj2 (is_same_v_false Head Target)).
Qed.

Lemma elem_of_types_of K args : K ∈ types_of args ↔ ∃ v, (K, v) ∈ args.
Proof.
  unfold types_of. rewrite list_elem_of_fmap. split.
  - intros [[K' v] [-> ?]]. by exists v.
  - intros [v ?]. by exists (K, v).
Qed.

Lemma get_Some Target args head :
  get Target args = Some head
  ↔ NoDup (types_of args) ∧ (Target, head) ∈ args.
Proof.
  induction args as [|[Head h] tail IH].
  - simpl. split; [done | by intros [_ ?%elem_of_nil]].
  - rewrite get_cons.
    change (types_of ((Head, h) :: tail)) with (Head :: types_of tail).
    destruct (contains_concept Target (Head :: types_of tail)) eqn:C.
    + apply contains_concept_spec in C as [ND _].
      destruct (is_same_v Target Head) eqn:E.
      * apply is_same_v_true in E as <-. split.
        -- intros [= ->]. split; [done | left].
        -- intros [_ [[= ->]|Hin]%elem_of_cons]; [done|].
           apply NoDup_cons in ND as [Hnot _]. destruct Hnot.
           apply elem_of_types_of. eauto.
      * apply is_same_v_false in E. rewrite IH, elem_of_cons.
        apply NoDup_cons in ND as [Hnot ND']. split.
        -- intros [_ ?]. split; [by apply NoDup_cons | by right].
        -- intros [_ [Heq|?]]; [by inversion Heq | by split].
    + split; [done|]. intros [ND Hin].
      assert (contains_concept Target (Head :: types_of tail) = true) as C'; [|congruence].
      apply contains_concept_spec. split; [done|].
      change (Target ∈ types_of ((Head, h) :: tail)).
      apply elem_of_types_of. eauto.
Qed.

Lemma get_is_Some Target args :
  is_Some (get Target args)
  ↔ has_no_duplicates (types_of args) = true ∧ contains Target (types_of args) = true.
Proof.
  rewrite has_no_duplicates_NoDup, contains_elem_of, elem_of_types_of.
  unfold is_Some. setoid_rewrite get_Some. split.
  - intros [v [? ?]]. eauto.
  - intros [? [v ?]]. eauto.
Qed.

(** One equation covers both class templates that define [get]. *)
Lemma storage_get_cons U Head (data_ : V) rest_ :
  storage_get U ((Head, data_) :: rest_)
  = if is_same_v Head U then Some data_ else storage_get U rest_.
Proof. by destruct rest_ as [|[??] ?]. Qed.

Lemma storage_get_is_Some U s : is_Some (storage_get U s) ↔ U ∈ list_of s.
Proof.
  induction s as [|[Head d] rest IH].
  - simpl. split; [by intros [? ?] | by intros ?%elem_of_nil].
  - rewrite storage_get_cons.
    change (list_of ((Head, d) :: rest)) with (Head :: list_of rest).
    rewrite elem_of_cons. destruct (is_same_v Head U) eqn:E.
    + apply is_same_v_true in E as ->. split; [by left | eauto].
    + apply is_same_v_false in E. rewrite IH. split; [by right|].
      by intros [?|?].
Qed.

Lemma filled_by_list_of f List s : filled_by f List s → list_of s = List.
Proof.
  induction 1 as [|K [K' v] List s [Hk _] _ IH]; [done|].
  simpl in Hk. change (list_of ((K', v) :: s)) with (K' :: list_of s).
  by rewrite IH, Hk.
Qed.

Lemma filled_by_get f List s K :
  filled_by f List s → K ∈ List → storage_get K s = f K.
Proof.
  induction 1 as [|K0 [K' v] List s [Hk Hf] _ IH]; [by intros ?%elem_of_nil|].
  simpl in Hk, Hf. subst K'. rewrite storage_get_cons.
  intros Hin. destruct (is_same_v K0 K) eqn:E.
  - apply is_same_v_true in E as ->. by rewrite Hf.
  - apply is_same_v_false in E. apply elem_of_cons in Hin as [->|?]; [done | auto].
Qed.

(** *** The constructors of [storage] *)

Lemma storage_from_args_cons Head Second Tail args :
  storage_from_args (Head :: Second :: Tail) args
  = if contains_all_concept (Head :: Second :: Tail) (types_of args) then
      data_ ← get Head args;
      rest_ ← storage_from_args (Second :: Tail) args;
      Some ((Head, data_) :: rest_)
    else None.
Proof. done. Qed.

Lemma storage_from_args_filled List args s :
  storage_from_args List args = Some s → filled_by (λ K, get K args) List s.
Proof.
  revert s. induction List as [|Head Tail IH]; intros s.
  - simpl. destruct args; [|done]. intros [= <-]. constructor.
  - destruct Tail as [|Second Tail].
    + simpl. destruct (contains_concept Head (types_of args)); [|done].
      destruct (get Head args) as [d|] eqn:G; [|done].
      intros [= <-]. by repeat constructor.
    + rewrite storage_from_args_cons.
      destruct (contains_all_concept _ _); [|done].
      destruct (get Head args) as [d|] eqn:G; [|done].
      destruct (storage_from_args (Second :: Tail) args) as [r|]; [|done].
      intros [= <-]. constructor; [done | by apply IH].
Qed.

Lemma storage_from_args_is_Some List args :
  NoDup List → NoDup (types_of args) → List ≠ [] →
  (∀ K, K ∈ List → K ∈ types_of args) →
  is_Some (storage_from_args List args).
Proof.
  intros NDL NDa Hne Hsub.
  assert (∀ K, K ∈ List → is_Some (get K args)) as Hget.
  { intros K HK. apply get_is_Some.
    by rewrite has_no_duplicates_NoDup, contains_elem_of; auto. }
  induction List as [|Head Tail IH]; [done|].
  destruct (Hget Head) as [d Hd]; [left|].
  destruct Tail as [|Second Tail].
  - simpl. rewrite (proj2 (contains_concept_spec _ _)) by (split; [done | apply Hsub; left]).
    rewrite Hd. eauto.
  - rewrite storage_from_args_cons.
    rewrite (proj2 (contains_all_concept_spec _ _)) by done.
    rewrite Hd.
    destruct IH as [r ->]; [by eapply NoDup_cons_1_2 | done | | | by eexists].
    + intros K ?. apply Hsub. by right.
    + intros K ?. apply Hget. by right.
Qed.

Lemma storage_merge_cons Head Second Tail a b :
  storage_merge (Head :: Second :: Tail) a b
  = if contains_concept Head (list_of a) || contains_concept Head (list_of b) then
      data_ ← get_head Head a b;
      rest_ ← storage_merge (Second :: Tail) a b;
      Some ((Head, data_) :: rest_)
    else None.
Proof. done. Qed.

Lemma storage_merge_filled List a b s :
  storage_merge List a b = Some s → filled_by (λ K, get_head K a b) List s.
Proof.
  revert s. induction List as [|Head Tail IH]; intros s; [done|].
  destruct Tail as [|Second Tail].
  - simpl. destruct (_ || _); [|done].
    destruct (get_head Head a b) as [d|] eqn:G; [|done].
    intros [= <-]. by repeat constructor.
  - rewrite storage_merge_cons. destruct (_ || _); [|done].
    destruct (get_head Head a b) as [d|] eqn:G; [|done].
    destruct (storage_merge (Second :: Tail) a b) as [r|]; [|done].
    intros [= <-]. constructor; [done | by apply IH].
Qed.

Lemma get_head_is_Some K a b :
  K ∈ list_of a ∨ K ∈ list_of b → is_Some (get_head K a b).
Proof.
  unfold get_head. destruct (contains K (list_of a)) eqn:C.
  - intros _. by apply storage_get_is_Some, contains_elem_of.
  - apply contains_not_elem_of in C. intros [?|?]; [done|].
    by apply storage_get_is_Some.
Qed.

Lemma storage_merge_is_Some List a b :
  NoDup (list_of a) → NoDup (list_of b) →
  is_Some (storage_merge List a b)
  ↔ List ≠ [] ∧ ∀ K, K ∈ List → K ∈ list_of a ∨ K ∈ list_of b.
Proof.
  intros NDa NDb.
  assert (∀ K, contains_concept K (list_of a) || contains_concept K (list_of b) = true
             ↔ K ∈ list_of a ∨ K ∈ list_of b) as Hc.
  { intros K. rewrite orb_true_iff, !contains_concept_spec. tauto. }
  induction List as [|Head Tail IH].
  - simpl. split; [by intros [? ?] | by intros [? _]].
  - destruct Tail as [|Second Tail].
    + simpl. destruct (_ || _) eqn:C.
      * apply Hc in C. destruct (get_head_is_Some Head a b C) as [d ->].
        simpl. split; [|by eauto]. intros _. split; [done|].
        by intros K ->%list_elem_of_singleton.
      * split; [by intros [? ?]|]. intros [_ H].
        apply not_true_iff_false in C. destruct C. apply Hc, H. left.
    + rewrite storage_merge_cons. destruct (_ || _) eqn:C.
      * apply Hc in C. destruct (get_head_is_Some Head a b C) as [d ->].
        split.
        -- intros [s Hs].
           destruct (storage_merge (Second :: Tail) a b) as [r|] eqn:R; [|done].
           split; [done|]. intros K [->|HK]%elem_of_cons; [done|].
           apply IH; [by eexists | done].
        -- intros [_ H]. destruct (proj2 IH) as [r ->]; [|by eexists].
           split; [done|]. intros K ?. apply H. by right.
      * split; [by intros [? ?]|]. intros [_ H].
        apply not_true_iff_false in C. destruct C. apply Hc, H. left.
Qed.

End storage_facts.

(** C2: the constructor that combines two storages gives the slot of every
    target kind [K] the value of [a] when the type list of [a] contains [K]
    and the value of [b] otherwise, so that [a] is preferred when both
    provide [K]. *)
Theorem storage_merge_first_wins {V} (List : list kind) (a b : storage V) (K : kind) :
  type_list_concept (list_of a) = true →
  type_list_concept (list_of b) = true →
  contains_all List (list_of a ++ list_of b) = true →
  contains K List = true →
  ∃ s, storage_merge List a b = Some s
       ∧ list_of s = List
       ∧ storage_get K s
         = (if contains K (list_of a) then storage_get K a else storage_get K b)
       ∧ is_Some (storage_get K s).
Proof.
  intros NDa%type_list_concept_NoDup NDb%type_list_concept_NoDup Hall HK.
  apply contains_elem_of in HK.
  assert (∀ K', K' ∈ List → K' ∈ list_of a ∨ K' ∈ list_of b) as Hsub.
  { intros K' HK'. apply elem_of_app. by eapply contains_all_spec. }
  destruct (proj2 (storage_merge_is_Some List a b NDa NDb)) as [s Hs].
  { split; [|done]. by intros ->; apply elem_of_nil in HK. }
  exists s. pose proof (storage_merge_filled _ _ _ _ Hs) as Hfill.
  pose proof (filled_by_get _ _ _ K Hfill HK) as Hget. simpl in Hget.
  split_and!; [done | by eapply filled_by_list_of | by rewrite Hget |].
  rewrite Hget. by apply get_head_is_Some, Hsub.
Qed.

Lemma storage_merge_first_wins_witness :
  let a := [(Int, 1); (Char, 97)] in
  let b := [(Int, 2); (Pointer Int, 5)] in
  let List := [Pointer Int; Int] in
  ∃ s, storage_merge List a b = Some s
       ∧ list_of s = List
       ∧ storage_get Int s
         = (if contains Int (list_of a) then storage_get Int a else storage_get Int b)
       ∧ is_Some (storage_get Int s).
Proof.
  intros a b List.
  apply (storage_merge_first_wins List a b Int); reflexivity.
Defined.

Lemma get_converting_cons2 {V} convert Target Head (head : V) second tail :
  get_converting convert Target ((Head, head) :: second :: tail)
  = if contains_concept Target (Head :: types_of (second :: tail)) then
      if is_same_v Target Head then Some head
      else get_converting convert Target (second :: tail)
    else None.
Proof. by destruct second. Qed.

(** A call of the lookup under a requires-clause that puts [Target] among
    the argument types never reaches a conversion. *)
Lemma get_converting_guarded {V} convert Target (args : pack V) :
  contains Target (types_of args) = true →
  get_converting convert Target args = get Target args.
Proof.
  induction args as [|[Head head] tail IH]; [done|].
  destruct tail as [|second tail].
  - simpl. rewrite orb_false_r. intros ->%is_same_v_true.
    by rewrite is_same_v_refl.
  - intros Hin. rewrite get_converting_cons2, get_cons.
    destruct (contains_concept _ _); [|done].
    destruct (is_same_v Target Head) eqn:E; [done|].
    apply IH.
    change (types_of ((Head, head) :: second :: tail))
      with (Head :: types_of (second :: tail)) in Hin.
    simpl in Hin. by rewrite E in Hin.
Qed.

Lemma get_converting_several {V} convert Target (args : pack V) :
  2 ≤ length args → get_converting convert Target args = get Target args.
Proof.
  intros Hlen.
  destruct (contains Target (types_of args)) eqn:C;
    [by apply get_converting_guarded|].
  destruct args as [|[Head head] [|second tail]]; [simpl in Hlen; lia..|].
  rewrite get_converting_cons2, get_cons. unfold contains_concept.
  change (Head :: types_of (second :: tail))
    with (types_of ((Head, head) :: second :: tail)).
  by rewrite C, andb_false_r.
Qed.

(** C10 (as the code has it): the lookup among arguments returns a value in
    two cases only.  Either the types of the arguments are pairwise distinct
    and the value is the one argument of the target type; or there is a
    single argument, of another type, and the value is that argument
    converted to the target type by the base case.  So two or more
    arguments are accepted exactly when their types are pairwise distinct
    and include the target, and never with more than one argument of the
    target type. *)
Theorem get_converting_defined {V} (convert : kind → kind → V → option V)
    (Target : kind) (args : pack V) (head : V) :
  get_converting convert Target args = Some head
  ↔ (has_no_duplicates (types_of args) = true ∧ (Target, head) ∈ args)
    ∨ (∃ Head h, args = [(Head, h)] ∧ Head ≠ Target
                 ∧ convert Head Target h = Some head).
Proof.
  rewrite has_no_duplicates_NoDup.
  destruct args as [|[Head h] [|[Second second] tail]].
  - simpl. split; [done|]. intros [[_ ?%elem_of_nil]|(? & ? & ? & _)]; done.
  - simpl. destruct (is_same_v Head Target) eqn:E.
    + apply is_same_v_true in E as ->. split.
      * intros [= ->]. left. split; [apply NoDup_singleton | left].
      * intros [[_ Hin%list_elem_of_singleton]|(H' & h' & [= -> ->] & Hne & _)];
          [by inversion Hin | done].
    + apply is_same_v_false in E. split.
      * intros Hc. right. by exists Head, h.
      * intros [[_ Hin%list_elem_of_singleton]|(H' & h' & [= -> ->] & _ & Hc)];
          [by inversion Hin | done].
  - rewrite get_converting_several by (simpl; lia). rewrite get_Some.
    split; [by left|]. intros [?|(? & ? & ? & _)]; done.
Qed.

(** The base case converts: [get<int>('a')] is 97 under a conversion from
    char to int that keeps the number. *)
Example get_converting_char_to_int :
  get_converting
    (λ Head Target head, if bool_decide (Head = Char ∧ Target = Int) then Some head else None)
    Int [(Char, 97)] = Some 97.
Proof. reflexivity. Qed.

(** C10 fails as stated: with two arguments of the target type, the
    constraint of lines 261-262 names [type_list<int, int>], and the call is
    rejected instead of returning the leftmost argument, whatever
    conversions there are. *)
Lemma get_repeated_target_rejected :
  let args := [(Int, 1); (Int, 2)] in
  contains Int (types_of args) = true
  ∧ get_converting (λ _ _ head, Some head) Int args = None
  ∧ get Int args = None.
Proof. split_and!; reflexivity. Qed.

(** ** The owning container *)

Section shared_resources_facts.

Context {V : Type}.
Implicit Types (args : pack V) (c other : shared_resources V) (K : kind).

Lemma bool_eq_iff (x y : bool) : (x = true ↔ y = true) → x = y.
Proof. destruct x, y; intuition congruence. Qed.

Lemma sr_list_NoDup c : sr_wf c → NoDup (sr_list c).
Proof.
  intros [HL _]. by apply NoDup_remove_types, type_list_concept_NoDup.
Qed.

Lemma sr_data_NoDup c : sr_wf c → NoDup (list_of (data_ c)).
Proof. intros Hc. rewrite (proj2 Hc). by apply sr_list_NoDup. Qed.

(** Reordering the arguments changes no lookup and no constraint. *)
Lemma get_Permutation Target args args' :
  args ≡ₚ args' → get Target args = get Target args'.
Proof.
  intros HP. apply option_eq. intros v. rewrite !get_Some.
  unfold types_of. by rewrite HP.
Qed.

Lemma storage_from_args_Permutation List args args' :
  args ≡ₚ args' → storage_from_args List args = storage_from_args List args'.
Proof.
  intros HP.
  assert (types_of args ≡ₚ types_of args') as HT by (unfold types_of; by rewrite HP).
  assert (∀ T, contains_concept T (types_of args) = contains_concept T (types_of args')) as Hc.
  { intros T. apply bool_eq_iff. rewrite !contains_concept_spec. by rewrite HT. }
  assert (∀ L, contains_all_concept L (types_of args)
               = contains_all_concept L (types_of args')) as Hca.
  { intros L. apply bool_eq_iff. rewrite !contains_all_concept_spec.
    by setoid_rewrite HT. }
  induction List as [|Head Tail IH].
  - simpl. destruct args, args'; try done.
    + by apply Permutation_nil_cons in HP.
    + symmetry in HP. by apply Permutation_nil_cons in HP.
  - destruct Tail as [|Second Tail].
    + simpl. by rewrite Hc, (get_Permutation _ _ _ HP).
    + rewrite !storage_from_args_cons.
      by rewrite Hca, (get_Permutation _ _ _ HP), IH.
Qed.

Lemma storage_from_own_types args :
  NoDup (types_of args) →
  ∃ add, storage_from_args (types_of args) args = Some add
         ∧ list_of add = types_of args
         ∧ ∀ K, K ∈ types_of args → storage_get K add = get K args.
Proof.
  intros ND. destruct (decide (types_of args = [])) as [E|E].
  - exists []. rewrite E. destruct args; [|done]. split_and!; [done..|].
    by intros K ?%elem_of_nil.
  - destruct (storage_from_args_is_Some (types_of args) args) as [add Hadd]; [done..|].
    exists add. pose proof (storage_from_args_filled _ _ _ Hadd) as Hfill.
    split_and!; [done | by eapply filled_by_list_of |].
    intros K HK. apply (filled_by_get _ _ _ K Hfill HK).
Qed.

End shared_resources_facts.

(** C4: a container made from arguments whose types are pairwise distinct
    and cover the effective type list returns for every kind [K] of that
    list the argument of type [K], and the same container results from the
    arguments in any other order. *)
Theorem shared_resources_from_args_round_trip {V}
    (List Exclude : list kind) (args : pack V) (K : kind) :
  type_list_concept List = true →
  type_list_concept (types_of args) = true →
  contains_all (remove_types List Exclude) (types_of args) = true →
  contains K (remove_types List Exclude) = true →
  ∃ c, shared_resources_from_args List Exclude args = Some c
       ∧ sr_wf c
       ∧ is_Some (shared_resources_get K c)
       ∧ (∀ v, (K, v) ∈ args → shared_resources_get K c = Some v)
       ∧ (∀ args', args' ≡ₚ args →
            shared_resources_from_args List Exclude args' = Some c).
Proof.
  intros HL Ha Hall HK.
  pose proof HL as NDL%type_list_concept_NoDup.
  pose proof Ha as NDa%type_list_concept_NoDup.
  pose proof (NoDup_remove_types List Exclude NDL) as NDl.
  apply contains_elem_of in HK.
  assert (contains_all_concept (remove_types List Exclude) (types_of args) = true) as Hcac.
  { apply contains_all_concept_spec. split_and!; [done..|]. by apply contains_all_spec. }
  destruct (storage_from_args_is_Some (remove_types List Exclude) args) as [s Hs];
    [done | done | by intros E; rewrite E in HK; apply elem_of_nil in HK
    | by apply contains_all_spec |].
  pose proof (storage_from_args_filled _ _ _ Hs) as Hfill.
  assert (shared_resources_from_args List Exclude args
          = Some (Build_shared_resources List Exclude s)) as Hc.
  { unfold shared_resources_from_args. by rewrite HL, Hcac, Hs. }
  eexists. split; [exact Hc|].
  pose proof (filled_by_get _ _ _ K Hfill HK) as Hget. simpl in Hget.
  unfold shared_resources_get. simpl. split_and!.
  - split; [done|]. by eapply filled_by_list_of.
  - rewrite Hget. apply get_is_Some. split; [done|].
    apply contains_elem_of. clear Hget. by eapply contains_all_spec.
  - intros v Hv. rewrite Hget. by apply get_Some.
  - intros args' HP. rewrite <-Hc. unfold shared_resources_from_args.
    rewrite (storage_from_args_Permutation _ _ _ HP).
    assert (contains_all_concept (remove_types List Exclude) (types_of args')
            = contains_all_concept (remove_types List Exclude) (types_of args)) as ->; [|done].
    apply bool_eq_iff. rewrite !contains_all_concept_spec.
    unfold types_of. by setoid_rewrite HP.
Qed.

Lemma shared_resources_from_args_round_trip_witness :
  let args := [(Pointer Int, 20); (Char, 97); (Pointer Char, 30); (Int, 1)] in
  ∃ c, shared_resources_from_args all [] args = Some c
       ∧ sr_wf c
       ∧ is_Some (shared_resources_get Char c)
       ∧ (∀ v, (Char, v) ∈ args → shared_resources_get Char c = Some v)
       ∧ (∀ args', args' ≡ₚ args →
            shared_resources_from_args all [] args' = Some c).
Proof.
  intros args.
  apply (shared_resources_from_args_round_trip all [] args Char); reflexivity.
Defined.

Section extension.

Context {V : Type}.
Implicit Types (args : pack V) (c other : shared_resources V) (K : kind).

(** What [create_storage] returns for a well-formed source. *)
Lemma create_storage_spec (list : list kind) (other : storage V) args :
  NoDup (list_of other) → NoDup (types_of args) →
  (is_Some (create_storage list other args)
   ↔ list ≠ [] ∧ ∀ K, K ∈ list → K ∈ list_of other ∨ K ∈ types_of args)
  ∧ ∀ s, create_storage list other args = Some s →
      list_of s = list
      ∧ ∀ K, K ∈ list →
          storage_get K s
          = if contains K (list_of other) then storage_get K other else get K args.
Proof.
  intros NDo NDa. unfold create_storage.
  destruct (storage_from_own_types args NDa) as (add & -> & Hadd & Hget). simpl.
  assert (NoDup (list_of add)) as NDadd by by rewrite Hadd.
  split.
  - rewrite storage_merge_is_Some by done. by rewrite Hadd.
  - intros s Hs. pose proof (storage_merge_filled _ _ _ _ Hs) as Hfill.
    split; [by eapply filled_by_list_of|].
    intros K HK. rewrite (filled_by_get _ _ _ K Hfill HK).
    unfold get_head. destruct (contains K (list_of other)) eqn:C; [done|].
    apply contains_not_elem_of in C.
    destruct (decide (K ∈ types_of args)) as [Hin|Hnin]; [by apply Hget|].
    transitivity (@None V).
    + apply eq_None_not_Some. rewrite storage_get_is_Some. by rewrite Hadd.
    + symmetry. apply eq_None_not_Some. rewrite get_is_Some, contains_elem_of. tauto.
Qed.

Lemma shared_resources_extend_spec List Exclude other args :
  sr_wf other → type_list_concept List = true → NoDup (types_of args) →
  (is_Some (shared_resources_extend List Exclude other args)
   ↔ remove_types List Exclude ≠ []
     ∧ ∀ K, K ∈ remove_types List Exclude → K ∈ sr_list other ∨ K ∈ types_of args)
  ∧ ∀ c, shared_resources_extend List Exclude other args = Some c →
      sr_wf c ∧ sr_List c = List ∧ sr_Exclude c = Exclude
      ∧ ∀ K, K ∈ remove_types List Exclude →
          shared_resources_get K c
          = if contains K (sr_list other) then shared_resources_get K other
            else get K args.
Proof.
  intros Ho HL NDa. pose proof (sr_data_NoDup _ Ho) as NDo.
  destruct (create_storage_spec (remove_types List Exclude) (data_ other) args NDo NDa)
    as [Hsome Hval].
  rewrite (proj2 Ho) in Hsome, Hval.
  unfold shared_resources_extend. rewrite HL.
  destruct (create_storage _ _ _) as [s|] eqn:Hs; simpl.
  - split.
    + rewrite <-Hsome. split; by eauto.
    + intros c [= <-]. destruct (Hval s eq_refl) as [Hlist Hget].
      by split_and!.
  - split; [|done]. rewrite <-Hsome. split; by intros [? ?].
Qed.

End extension.

(** C1 (as the code has it): the container made from a container [A] and
    additional arguments takes every kind that [A] stores from [A], also
    when an additional argument of that type is supplied; the additional
    arguments provide only the kinds that [A] lacks. *)
Theorem shared_resources_extend_existing_wins {V}
    (List Exclude : list kind) (A : shared_resources V) (args : pack V) (K : kind) :
  sr_wf A →
  type_list_concept List = true →
  type_list_concept (types_of args) = true →
  contains_all (remove_types List Exclude) (sr_list A ++ types_of args) = true →
  contains K (remove_types List Exclude) = true →
  ∃ c, shared_resources_extend List Exclude A args = Some c
       ∧ sr_wf c
       ∧ is_Some (shared_resources_get K c)
       ∧ shared_resources_get K c
         = if contains K (sr_list A) then shared_resources_get K A else get K args.
Proof.
  intros HA HL NDa%type_list_concept_NoDup Hall HK%contains_elem_of.
  destruct (shared_resources_extend_spec List Exclude A args HA HL NDa) as [Hsome Hval].
  assert (∀ K', K' ∈ remove_types List Exclude → K' ∈ sr_list A ∨ K' ∈ types_of args) as Hsub.
  { intros K' HK'. apply elem_of_app. by eapply contains_all_spec. }
  destruct (proj2 Hsome) as [c Hc].
  { split; [|done]. intros E. rewrite E in HK. by apply elem_of_nil in HK. }
  exists c. destruct (Hval c Hc) as (Hwf & _ & _ & Hget).
  split_and!; [done | done | | by apply Hget].
  rewrite Hget by done. destruct (contains K (sr_list A)) eqn:C.
  - apply storage_get_is_Some. rewrite (proj2 HA). by apply contains_elem_of.
  - apply contains_not_elem_of in C. apply get_is_Some.
    rewrite has_no_duplicates_NoDup, contains_elem_of.
    destruct (Hsub K HK); [done | by split].
Qed.

Lemma shared_resources_extend_existing_wins_witness :
  let A := Build_shared_resources [Int; Char] [] [(Int, 1); (Char, 97)] in
  let args := [(Int, 2); (Pointer Int, 20)] in
  let List := [Pointer Int; Char; Int] in
  ∃ c, shared_resources_extend List [] A args = Some c
       ∧ sr_wf c
       ∧ is_Some (shared_resources_get Int c)
       ∧ shared_resources_get Int c
         = if contains Int (sr_list A) then shared_resources_get Int A else get Int args.
Proof.
  intros A args List.
  apply (shared_resources_extend_existing_wins List [] A args Int);
    [split; reflexivity | reflexivity..].
Defined.

(** C1 fails as stated: a container over {int, char} holding the int 1,
    extended by the additional int 2, still returns 1 for int. *)
Lemma shared_resources_extend_new_value_ignored :
  ∃ A c,
    shared_resources_from_args [Int; Char] [] [(Int, 1); (Char, 97)] = Some A
    ∧ shared_resources_extend [Int; Char] [] A [(Int, 2)] = Some c
    ∧ shared_resources_get Int c = Some 1
    ∧ shared_resources_get Int c ≠ Some 2.
Proof.
  eexists _, _. split_and!; [reflexivity | reflexivity | reflexivity | discriminate].
Qed.

Section conversion.

Context {V : Type}.
Implicit Types (c other : shared_resources V) (K : kind).

Lemma shared_resources_convert_is_Some List Exclude other :
  type_list_concept List = true →
  is_Some (shared_resources_convert List Exclude other)
  ↔ remove_types List Exclude = sr_list other.
Proof.
  intros HL. unfold shared_resources_convert. rewrite HL. simpl.
  case_bool_decide; split; by eauto using is_Some_None.
Qed.

Lemma shared_resources_from_other_spec List Exclude other :
  sr_wf other → type_list_concept List = true →
  (is_Some (shared_resources_from_other List Exclude other)
   ↔ remove_types List Exclude = sr_list other
     ∨ remove_types List Exclude ≠ []
       ∧ ∀ K, K ∈ remove_types List Exclude → K ∈ sr_list other)
  ∧ ∀ c, shared_resources_from_other List Exclude other = Some c →
      sr_wf c ∧ sr_List c = List ∧ sr_Exclude c = Exclude
      ∧ ∀ K, K ∈ remove_types List Exclude →
          shared_resources_get K c = shared_resources_get K other.
Proof.
  intros Ho HL.
  destruct (shared_resources_extend_spec List Exclude other [] Ho HL (NoDup_nil_2))
    as [Hsome Hval].
  unfold shared_resources_from_other, shared_resources_convert. rewrite HL. simpl.
  case_bool_decide as E.
  - split; [split; by eauto|]. intros c [= <-].
    split_and!; [|done..]. split; [done|]. simpl. rewrite (proj2 Ho).
    symmetry. exact E.
  - split.
    + rewrite Hsome. split.
      * intros [? H]. right. split; [done|]. intros K HK.
        destruct (H K HK) as [?|?%elem_of_nil]; done.
      * intros [?|[? H]]; [done|]. split; [done|]. intros K HK. left. by apply H.
    + intros c Hc. destruct (Hval c Hc) as (? & ? & ? & Hget).
      split_and!; [done..|]. intros K HK. rewrite (Hget K HK).
      destruct (contains K (sr_list other)) eqn:C; [done|].
      apply contains_not_elem_of in C. simpl. symmetry.
      apply eq_None_not_Some. unfold shared_resources_get.
      rewrite storage_get_is_Some. by rewrite (proj2 Ho).
Qed.

End conversion.

(** C3 (as the code has it): a container converts into a container type
    exactly when every kind of the target's effective type list is in the
    source's effective type list, the target's list being empty only if
    the source's is.  Effective lists with the same elements in any order
    are thus always convertible, and so is a source with more kinds.  The
    constructor of lines 558-563 alone takes part exactly when the two
    effective lists are the same list. *)
Theorem shared_resources_from_other_permitted {V}
    (List Exclude : list kind) (other : shared_resources V) :
  sr_wf other →
  type_list_concept List = true →
  (is_Some (shared_resources_from_other List Exclude other)
   ↔ contains_all (remove_types List Exclude) (sr_list other) = true
     ∧ (remove_types List Exclude = [] → sr_list other = []))
  ∧ ((∀ K, K ∈ remove_types List Exclude ↔ K ∈ sr_list other) →
     is_Some (shared_resources_from_other List Exclude other))
  ∧ (is_Some (shared_resources_convert List Exclude other)
     ↔ remove_types List Exclude = sr_list other).
Proof.
  intros Ho HL.
  destruct (shared_resources_from_other_spec List Exclude other Ho HL) as [Hsome _].
  assert (is_Some (shared_resources_from_other List Exclude other)
          ↔ contains_all (remove_types List Exclude) (sr_list other) = true
            ∧ (remove_types List Exclude = [] → sr_list other = [])) as Hiff.
  { rewrite Hsome, contains_all_spec. split.
    - intros [E|[Hne Hsub]]; [|done]. rewrite E. done.
    - intros [Hsub Hnil].
      destruct (decide (remove_types List Exclude = [])) as [E|E]; [|by right].
      left. by rewrite E, Hnil. }
  split_and!; [done | | by apply shared_resources_convert_is_Some].
  intros Heq. apply Hiff. split.
  - apply contains_all_spec. intros K. by apply Heq.
  - intros E. rewrite E in Heq. destruct (sr_list other) as [|K l]; [done|].
    exfalso. eapply elem_of_nil, Heq. left.
Qed.

Lemma shared_resources_from_other_permitted_witness :
  let other := Build_shared_resources all [Int] [(Char, 97); (Pointer Int, 20); (Pointer Char, 30)] in
  let List := extra in
  let Exclude := [Pointer (Pointer Char); Int] in
  (is_Some (shared_resources_from_other List Exclude other)
   ↔ contains_all (remove_types List Exclude) (sr_list other) = true
     ∧ (remove_types List Exclude = [] → sr_list other = []))
  ∧ ((∀ K, K ∈ remove_types List Exclude ↔ K ∈ sr_list other) →
     is_Some (shared_resources_from_other List Exclude other))
  ∧ (is_Some (shared_resources_convert List Exclude other)
     ↔ remove_types List Exclude = sr_list other).
Proof.
  intros other List Exclude.
  apply (shared_resources_from_other_permitted List Exclude other);
    [split; reflexivity | reflexivity].
Defined.

(** C3 fails as stated: a container over {int, char} converts into a
    container over {int}, although the two effective sets differ. *)
Lemma shared_resources_narrowing_permitted :
  let other := Build_shared_resources [Int; Char] [] [(Int, 1); (Char, 97)] in
  sr_wf other
  ∧ is_Some (shared_resources_from_other [Int; Char] [Char] other)
  ∧ ¬ (∀ K, K ∈ remove_types [Int; Char] [Char] ↔ K ∈ sr_list other).
Proof.
  intros other. split_and!.
  - split; reflexivity.
  - by eexists.
  - intros H. specialize (H Char). vm_compute in H.
    destruct H as [_ H]. specialize (H (ltac:(right; left))).
    apply list_elem_of_singleton in H. discriminate.
Qed.

(** C5: between effective type lists that are permutations of each other a
    container converts, and the converted container returns for every kind
    what the original returns. *)
Theorem shared_resources_from_other_permutation {V}
    (List Exclude : list kind) (other : shared_resources V) (K : kind) :
  sr_wf other →
  type_list_concept List = true →
  remove_types List Exclude ≡ₚ sr_list other →
  contains K (sr_list other) = true →
  ∃ c, shared_resources_from_other List Exclude other = Some c
       ∧ sr_wf c
       ∧ sr_list c = remove_types List Exclude
       ∧ is_Some (shared_resources_get K other)
       ∧ shared_resources_get K c = shared_resources_get K other.
Proof.
  intros Ho HL HP HK%contains_elem_of.
  destruct (shared_resources_from_other_spec List Exclude other Ho HL) as [Hsome Hval].
  destruct (proj2 Hsome) as [c Hc].
  { right. split.
    - intros E. rewrite <-HP, E in HK. by apply elem_of_nil in HK.
    - intros K'. by rewrite HP. }
  exists c. destruct (Hval c Hc) as (Hwf & HcL & HcE & Hget).
  split_and!; [done | done | | |].
  - unfold sr_list. by rewrite HcL, HcE.
  - apply storage_get_is_Some. by rewrite (proj2 Ho).
  - apply Hget. by rewrite HP.
Qed.

Lemma shared_resources_from_other_permutation_witness :
  let other := Build_shared_resources all []
                 [(Int, 1); (Char, 97); (Pointer Int, 20); (Pointer Char, 30)] in
  ∃ c, shared_resources_from_other shuffled [] other = Some c
       ∧ sr_wf c
       ∧ sr_list c = remove_types shuffled []
       ∧ is_Some (shared_resources_get (Pointer Char) other)
       ∧ shared_resources_get (Pointer Char) c = shared_resources_get (Pointer Char) other.
Proof.
  intros other.
  apply (shared_resources_from_other_permutation shuffled [] other (Pointer Char));
    [split; reflexivity | reflexivity
    | apply (bool_decide_unpack _); vm_compute; exact I | reflexivity].
Defined.

(** ** Containers in memory *)

Lemma place_list_of base (s : storage value) : list_of (place base s) = list_of s.
Proof.
  revert base. induction s as [|[T d] rest IH]; intros base; [done|].
  simpl. unfold list_of in *. simpl. by rewrite IH.
Qed.

Lemma place_cells base (s : storage value) :
  (place base s).*2 = seq base (length s).
Proof.
  revert base. induction s as [|[T d] rest IH]; intros base; [done|].
  simpl. by rewrite IH.
Qed.

Lemma elem_of_place_cells base (s : storage value) l :
  l ∈ (place base s).*2 ↔ base ≤ l < base + length s.
Proof. rewrite place_cells. apply elem_of_seq. Qed.

(** The reference that [get<U>] returns is to a cell of the object, and
    that cell is where the member of kind [U] was put. *)
Lemma storage_get_place U base (s : storage value) a :
  storage_get U (place base s) = Some a →
  base ≤ a < base + length s ∧ s.*2 !! (a - base) = storage_get U s.
Proof.
  revert base. induction s as [|[T d] rest IH]; intros base; [done|].
  change (place base ((T, d) :: rest)) with ((T, base) :: place (S base) rest).
  rewrite !storage_get_cons. destruct (is_same_v T U).
  - intros [= <-]. simpl. split; [lia|]. by rewrite Nat.sub_diag.
  - intros [Hr Hv]%IH. simpl. split; [lia|].
    replace (a - base) with (S (a - S base)) by lia. done.
Qed.

Lemma load_cons m T l (o : pack loc) :
  load m ((T, l) :: o)
  = v ← read m l; rest ← load m o; Some ((T, v) :: rest).
Proof. unfold load. simpl. by destruct (read m l). Qed.

Lemma load_agree (o : pack loc) m m' :
  agree_on o.*2 m m' → load m' o = load m o.
Proof.
  induction o as [|[T l] o IH]; intros H; [done|].
  rewrite !load_cons, (H l) by left. rewrite IH; [done|].
  intros l' ?. apply H. by right.
Qed.

Lemma load_place m (s : storage value) m' :
  load (m ++ s.*2 ++ m') (place (length m) s) = Some s.
Proof.
  revert m. induction s as [|[T d] rest IH]; intros m; [done|].
  change (place (length m) ((T, d) :: rest))
    with ((T, length m) :: place (S (length m)) rest).
  change (((T, d) :: rest).*2 ++ m') with (d :: rest.*2 ++ m').
  rewrite load_cons. unfold read at 1. rewrite list_lookup_middle by done.
  specialize (IH (m ++ [d])). rewrite length_app, Nat.add_1_r, <-app_assoc in IH.
  change ([d] ++ rest.*2 ++ m') with (d :: rest.*2 ++ m') in IH.
  simpl. by rewrite IH.
Qed.

Lemma agree_on_write ls m a v :
  a ∉ ls → agree_on ls m (write m a v).
Proof.
  intros Ha l Hl. unfold read, write. apply list_lookup_insert_ne.
  by intros ->.
Qed.

Lemma agree_on_app ls m m' :
  Forall (λ l, l < length m) ls → agree_on ls m (m ++ m').
Proof.
  intros Hls l Hl. unfold read. apply lookup_app_l.
  by eapply Forall_forall in Hls.
Qed.

Lemma agree_on_trans ls m1 m2 m3 :
  agree_on ls m1 m2 → agree_on ls m2 m3 → agree_on ls m1 m3.
Proof. intros H12 H23 l Hl. by rewrite H23, H12. Qed.

Lemma contents_agree o m m' :
  agree_on (cells o) m m' → contents m' o = contents m o.
Proof. intros H. unfold contents. by rewrite (load_agree _ _ _ H). Qed.

Lemma new_object_contents m c :
  contents (new_object m c).2 (new_object m c).1 = Some c.
Proof.
  unfold contents, new_object. simpl.
  pose proof (load_place m (data_ c) []) as H. rewrite app_nil_r in H.
  rewrite H. by destruct c.
Qed.

Lemma new_object_cells m c l :
  l ∈ cells (new_object m c).1 ↔ length m ≤ l < length m + length (data_ c).
Proof. unfold cells, new_object. simpl. apply elem_of_place_cells. Qed.

Lemma new_object_length m c :
  length (new_object m c).2 = length m + length (data_ c).
Proof. unfold new_object. simpl. by rewrite length_app, length_fmap. Qed.

Lemma shared_resources_from_args_inv {V} List Exclude (args : pack V) c :
  shared_resources_from_args List Exclude args = Some c →
  NoDup (types_of args)
  ∧ sr_wf c ∧ sr_List c = List ∧ sr_Exclude c = Exclude
  ∧ ∀ K, K ∈ remove_types List Exclude →
      K ∈ types_of args ∧ shared_resources_get K c = get K args.
Proof.
  unfold shared_resources_from_args.
  destruct (type_list_concept List) eqn:HL; [|done]. simpl.
  destruct (contains_all_concept _ _) eqn:Hc; [|done].
  apply contains_all_concept_spec in Hc as (NDl & NDa & Hsub).
  destruct (storage_from_args _ _) as [s|] eqn:Hs; [|done].
  intros [= <-]. pose proof (storage_from_args_filled _ _ _ Hs) as Hfill.
  split_and!; [done | | done | done |].
  - split; [done|]. by eapply filled_by_list_of.
  - intros K HK. split; [by apply Hsub|].
    apply (filled_by_get _ _ _ K Hfill HK).
Qed.

Lemma load_inv m (vars : pack loc) args :
  load m vars = Some args →
  types_of args = types_of vars
  ∧ ∀ K x, (K, x) ∈ vars → ∃ v, read m x = Some v ∧ (K, v) ∈ args.
Proof.
  revert args. induction vars as [|[T l] vars IH]; intros args.
  - intros [= <-]. split; [done|]. by intros K x ?%elem_of_nil.
  - rewrite load_cons. destruct (read m l) as [v|] eqn:R; [|done]. simpl.
    destruct (load m vars) as [rest|]; [|done]. intros [= <-].
    destruct (IH rest eq_refl) as [Ht Hv]. split.
    + change (types_of ((T, v) :: rest)) with (T :: types_of rest).
      by rewrite Ht.
    + intros K x [Heq|Hin]%elem_of_cons.
      * inversion Heq; subst. exists v. split; [done | left].
      * destruct (Hv K x Hin) as (v' & ? & ?). exists v'. split; [done | by right].
Qed.

(** *** Wrapping kinds in [std::reference_wrapper] *)

#[local] Instance reference_wrapper_inj : Inj (=) (=) reference_wrapper.
Proof. by intros T U [= ->]. Qed.

Lemma elem_of_wrap_with_reference K Types :
  reference_wrapper K ∈ wrap_with_reference Types ↔ K ∈ Types.
Proof. unfold wrap_with_reference. by rewrite (list_elem_of_fmap_inj _). Qed.

Lemma NoDup_wrap_with_reference Types :
  NoDup (wrap_with_reference Types) ↔ NoDup Types.
Proof. unfold wrap_with_reference. apply (NoDup_fmap _). Qed.

Lemma remove_type_wrap_with_reference List Exclude :
  remove_type (wrap_with_reference List) (reference_wrapper Exclude)
  = wrap_with_reference (remove_type List Exclude).
Proof.
  induction List as [|Head Tail IH]; [done|].
  simpl. rewrite IH.
  assert (is_same_v (reference_wrapper Head) (reference_wrapper Exclude)
          = is_same_v Head Exclude) as ->; [|by destruct (is_same_v Head Exclude)].
  apply bool_eq_iff. rewrite !is_same_v_true. split; [by intros [= ->] | by intros ->].
Qed.

Lemma remove_types_wrap_with_reference List Exclude :
  remove_types (wrap_with_reference List) (wrap_with_reference Exclude)
  = wrap_with_reference (remove_types List Exclude).
Proof.
  rewrite !remove_types_foldl. revert List.
  induction Exclude as [|Head Tail IH]; intros List; [done|].
  simpl. by rewrite remove_type_wrap_with_reference, IH.
Qed.

Lemma types_of_wrap_args (args : pack loc) :
  types_of (wrap_args args) = wrap_with_reference (types_of args).
Proof.
  unfold types_of, wrap_args, wrap_with_reference.
  rewrite <-!list_fmap_compose. by apply list_fmap_ext.
Qed.

(** What the constructor of lines 663-668 stores for a kind is the address
    of the variable of that type. *)
Lemma shared_references_from_args_get List Exclude (vars : pack loc) r K :
  shared_references_from_args List Exclude vars = Some r →
  K ∈ remove_types List Exclude →
  sf_List r = List ∧ sf_Exclude r = Exclude
  ∧ ∃ x, (K, x) ∈ vars ∧ shared_references_get K r = Some x.
Proof.
  unfold shared_references_from_args.
  destruct (shared_references_class List Exclude); [|done]. simpl.
  destruct (contains_all_concept _ _) eqn:Hc; [|done].
  apply contains_all_concept_spec in Hc as (NDl & NDa & Hsub).
  destruct (shared_resources_from_args _ _ _) as [c|] eqn:Hcdata; [|done].
  intros [= <-] HK. split_and!; [done..|].
  apply shared_resources_from_args_inv in Hcdata as (_ & _ & _ & _ & Hget).
  destruct (Hget (reference_wrapper K)) as [_ HgetK].
  { rewrite remove_types_wrap_with_reference. by apply elem_of_wrap_with_reference. }
  destruct (proj1 (elem_of_types_of K vars) (Hsub K HK)) as [x Hx].
  exists x. split; [done|]. unfold shared_references_get. simpl. rewrite HgetK.
  assert (get (reference_wrapper K) (wrap_args vars) = Some (Address x)) as ->; [|done].
  apply get_Some. split.
  - rewrite types_of_wrap_args. by apply NoDup_wrap_with_reference.
  - unfold wrap_args. apply list_elem_of_fmap. by exists (K, x).
Qed.

Lemma read_write_eq (m : memory) a v : a < length m → read (write m a v) a = Some v.
Proof. intros H. unfold read, write. by apply list_lookup_insert_eq. Qed.

Lemma read_write_ne (m : memory) a l v : a ≠ l → read (write m a v) l = read m l.
Proof. intros H. unfold read, write. by apply list_lookup_insert_ne. Qed.

Lemma length_write (m : memory) a v : length (write m a v) = length m.
Proof. unfold write. apply length_insert. Qed.

(** C9: the members of a declared resource container are objects of their
    own, initialised with copies of the variables passed in.  Assigning
    through [get<K>()] changes the member and no object that existed before
    the declaration: not the variable that seeded it and not the storage of
    a container declared before.  Declaring a further container from this
    one leaves this one as it was, and an assignment through either changes
    nothing in the other; the same holds of a container declared later
    from whatever values. *)
Theorem shared_resources_value_semantics
    (List Exclude : list kind) (vars : pack loc) (m m1 : memory)
    (o : shared_resources loc) (K : kind) (a : loc) (v : value) :
  shared_resources_declare List Exclude vars m = Some (o, m1) →
  shared_resources_get K o = Some a →
  length m ≤ a < length m1
  ∧ (∀ x, (K, x) ∈ vars → read m1 a = read m x)
  ∧ read (write m1 a v) a = Some v
  ∧ (∀ l, l < length m →
       read m1 l = read m l ∧ read (write m1 a v) l = read m l)
  ∧ (∀ o', Forall (λ l, l < length m) (cells o') →
       contents m1 o' = contents m o'
       ∧ contents (write m1 a v) o' = contents m o')
  ∧ (∀ List' Exclude' vars' o2 m2,
       shared_resources_declare_from List' Exclude' o vars' m1 = Some (o2, m2) →
       contents m2 o = contents m1 o
       ∧ contents (write m2 a v) o2 = contents m2 o2
       ∧ ∀ K' a' v', shared_resources_get K' o2 = Some a' →
           contents (write m2 a' v') o = contents m1 o)
  ∧ (∀ m2 c2, length m1 ≤ length m2 →
       contents (new_object m2 c2).2 (new_object m2 c2).1 = Some c2
       ∧ contents (write (new_object m2 c2).2 a v) (new_object m2 c2).1 = Some c2).
Proof.
  unfold shared_resources_declare. intros Hdecl Hget.
  destruct (load m vars) as [args|] eqn:Hload; [|done]. simpl in Hdecl.
  destruct (shared_resources_from_args List Exclude args) as [c|] eqn:Hc; [|done].
  simpl in Hdecl. injection Hdecl as Ho_eq <-.
  unfold shared_resources_get in Hget. rewrite <-Ho_eq in Hget. simpl in Hget.
  apply shared_resources_from_args_inv in Hc as (NDa & [_ Hlist] & HcL & HcE & Hg).
  assert (K ∈ remove_types List Exclude) as HK.
  { unfold sr_list in Hlist. rewrite HcL, HcE in Hlist. rewrite <-Hlist.
    rewrite <-(place_list_of (length m)). apply storage_get_is_Some. by eexists. }
  apply storage_get_place in Hget as [Hrange Hval].
  assert (length (m ++ (data_ c).*2) = length m + length (data_ c)) as Hlen
    by by rewrite length_app, length_fmap.
  assert (∀ l, l < length m → read (m ++ (data_ c).*2) l = read m l) as Hold.
  { intros l Hl. unfold read. by apply lookup_app_l. }
  split; [lia|]. split_and!.
  - intros x Hx. unfold read at 1. rewrite lookup_app_r, Hval by lia.
    destruct (load_inv _ _ _ Hload) as [Ht Hv].
    destruct (Hv K x Hx) as (w & -> & Hw).
    destruct (Hg K HK) as [_ HgK]. unfold shared_resources_get in HgK.
    rewrite HgK. by apply get_Some.
  - apply read_write_eq. lia.
  - intros l Hl. split; [by apply Hold|].
    rewrite read_write_ne by lia. by apply Hold.
  - intros o' Ho'. split.
    + apply contents_agree. by apply agree_on_app.
    + apply contents_agree. eapply agree_on_trans; [by apply agree_on_app|].
      apply agree_on_write. intros Hin. eapply Forall_forall in Ho'; [|done]. lia.
  - intros List' Exclude' vars' o2 m2. unfold shared_resources_declare_from.
    intros (src & _ & (args' & _ & (c2 & _ & Hnew)%bind_Some)%bind_Some)%bind_Some.
    injection Hnew as <- <-.
    assert (Forall (λ l, l < length (m ++ (data_ c).*2)) (cells o)) as Ho.
    { apply Forall_forall. intros l. rewrite <-Ho_eq.
      change (l ∈ cells (new_object m c).1 → l < length (m ++ (data_ c).*2)).
      rewrite new_object_cells. lia. }
    split_and!.
    + apply contents_agree. by apply agree_on_app.
    + apply contents_agree, agree_on_write.
      intros Hin. apply (new_object_cells (m ++ (data_ c).*2) c2) in Hin. lia.
    + intros K' a' v' [Ha' _]%storage_get_place.
      apply contents_agree. eapply agree_on_trans; [by apply agree_on_app|].
      apply agree_on_write. intros Hin. eapply Forall_forall in Ho; [|done]. lia.
  - intros m2 c2 Hm2. split; [apply new_object_contents|].
    rewrite <-(new_object_contents m2 c2). apply contents_agree, agree_on_write.
    rewrite new_object_cells. lia.
Qed.

Lemma shared_resources_value_semantics_witness :
  let vars := [(Pointer Int, 3); (Char, 1); (Pointer Char, 5); (Int, 0)] in
  let m := test_memory in
  let m1 := test_memory ++ [Scalar 1; Scalar 97; Address 2; Address 4] in
  let o := Build_shared_resources all []
             [(Int, 6); (Char, 7); (Pointer Int, 8); (Pointer Char, 9)] in
  let a := 7 in
  let v := Scalar 99 in
  length m ≤ a < length m1
  ∧ (∀ x, (Char, x) ∈ vars → read m1 a = read m x)
  ∧ read (write m1 a v) a = Some v
  ∧ (∀ l, l < length m →
       read m1 l = read m l ∧ read (write m1 a v) l = read m l)
  ∧ (∀ o', Forall (λ l, l < length m) (cells o') →
       contents m1 o' = contents m o'
       ∧ contents (write m1 a v) o' = contents m o')
  ∧ (∀ List' Exclude' vars' o2 m2,
       shared_resources_declare_from List' Exclude' o vars' m1 = Some (o2, m2) →
       contents m2 o = contents m1 o
       ∧ contents (write m2 a v) o2 = contents m2 o2
       ∧ ∀ K' a' v', shared_resources_get K' o2 = Some a' →
           contents (write m2 a' v') o = contents m1 o)
  ∧ (∀ m2 c2, length m1 ≤ length m2 →
       contents (new_object m2 c2).2 (new_object m2 c2).1 = Some c2
       ∧ contents (write (new_object m2 c2).2 a v) (new_object m2 c2).1 = Some c2).
Proof.
  intros vars m m1 o a v.
  apply (shared_resources_value_semantics all [] vars m m1 o Char a v); reflexivity.
Defined.

(** ** Reference containers in memory *)

Lemma new_references_inv m r o m1 :
  new_references m r = (o, m1) →
  sf_List o = sf_List r ∧ sf_Exclude o = sf_Exclude r
  ∧ sf_data o = (new_object m (sf_data r)).1
  ∧ m1 = (new_object m (sf_data r)).2.
Proof. unfold new_references. simpl. by intros [= <- <-]. Qed.

Lemma new_references_contents m r o m1 :
  new_references m r = (o, m1) → references_contents m1 o = Some r.
Proof.
  intros (HL & HE & Hd & ->)%new_references_inv.
  unfold references_contents. rewrite Hd, new_object_contents. simpl.
  rewrite HL, HE. by destruct r.
Qed.

Lemma references_contents_agree o m m' :
  agree_on (cells (sf_data o)) m m' →
  references_contents m' o = references_contents m o.
Proof.
  intros H. unfold references_contents. by rewrite (contents_agree _ _ _ H).
Qed.

(** C6: [get<K>()] of a declared reference container is the variable of
    type [K] that was passed in, so that assigning through it changes that
    variable.  A copy of the container holds the same addresses: it sees the
    assignment whether it was made before or after the copy, and an
    assignment through the copy is seen through the original. *)
Theorem shared_references_alias
    (List Exclude : list kind) (vars : pack loc) (m m1 : memory)
    (o : shared_references loc) (K : kind) :
  Forall (λ var, var.2 < length m) vars →
  shared_references_declare List Exclude vars m = Some (o, m1) →
  contains K (remove_types List Exclude) = true →
  ∃ x, (K, x) ∈ vars
       ∧ references_get K m1 o = Some x
       ∧ ∀ v,
           read (write m1 x v) x = Some v
           ∧ references_get K (write m1 x v) o = Some x
           ∧ ∃ copy m3,
               shared_references_copy o (write m1 x v) = Some (copy, m3)
               ∧ references_get K m3 copy = Some x
               ∧ read m3 x = Some v
               ∧ ∀ w,
                   read (write m3 x w) x = Some w
                   ∧ references_get K (write m3 x w) o = Some x
                   ∧ references_get K (write m3 x w) copy = Some x.
Proof.
  unfold shared_references_declare. intros Hvars Hdecl HK%contains_elem_of.
  destruct (shared_references_from_args List Exclude vars) as [r|] eqn:Hr; [|done].
  change (Some (new_references m r) = Some (o, m1)) in Hdecl.
  apply (inj Some) in Hdecl as Hnew.
  destruct (shared_references_from_args_get _ _ _ _ K Hr HK) as (_ & _ & x & Hx & Hget).
  assert (x < length m) as Hxm.
  { eapply Forall_forall in Hvars; [|exact Hx]. done. }
  pose proof (new_references_contents _ _ _ _ Hnew) as Hcont.
  destruct (new_references_inv _ _ _ _ Hnew) as (_ & _ & Hd & Hm1).
  assert (length m ≤ length m1) as Hlen1.
  { rewrite Hm1, new_object_length. lia. }
  assert (∀ l, l ∈ cells (sf_data o) → length m ≤ l < length m1) as Hcells.
  { intros l. rewrite Hd, Hm1, new_object_cells, new_object_length. done. }
  assert (∀ m', agree_on (cells (sf_data o)) m1 m' → references_get K m' o = Some x) as Hstable.
  { intros m' H. unfold references_get.
    by rewrite (references_contents_agree _ _ _ H), Hcont. }
  exists x. split_and!; [done | |].
  { apply Hstable. by intros l _. }
  intros v.
  assert (agree_on (cells (sf_data o)) m1 (write m1 x v)) as Hag2.
  { apply agree_on_write. intros Hin%Hcells. lia. }
  split_and!; [apply read_write_eq; lia | by apply Hstable |].
  unfold shared_references_copy.
  rewrite (references_contents_agree _ _ _ Hag2), Hcont. simpl.
  destruct (new_references (write m1 x v) r) as [copy m3] eqn:Hcopy.
  exists copy, m3. split; [done|].
  pose proof (new_references_contents _ _ _ _ Hcopy) as Hcont3.
  destruct (new_references_inv _ _ _ _ Hcopy) as (_ & _ & Hd3 & Hm3).
  assert (∀ l, l ∈ cells (sf_data copy) → length m1 ≤ l < length m3) as Hcells3.
  { intros l. rewrite Hd3, Hm3, new_object_cells, new_object_length, length_write. done. }
  assert (agree_on (cells (sf_data o)) m1 m3) as Hag3.
  { eapply agree_on_trans; [exact Hag2|]. rewrite Hm3. unfold new_object. simpl.
    apply agree_on_app. apply Forall_forall. intros l Hl%Hcells.
    rewrite length_write. lia. }
  split_and!.
  - unfold references_get. by rewrite Hcont3.
  - rewrite Hm3. unfold new_object. simpl. unfold read.
    rewrite lookup_app_l by (rewrite length_write; lia).
    apply read_write_eq. lia.
  - intros w.
    assert (x < length m3) as Hxm3.
    { rewrite Hm3, new_object_length, length_write. lia. }
    split_and!.
    + by apply read_write_eq.
    + apply Hstable. eapply agree_on_trans; [exact Hag3|].
      apply agree_on_write. intros Hin%Hcells. lia.
    + unfold references_get.
      rewrite (references_contents_agree copy m3), Hcont3; [done|].
      apply agree_on_write. intros Hin%Hcells3. lia.
Qed.

Lemma shared_references_alias_witness :
  let vars := [(Pointer Int, 3); (Char, 1); (Pointer Char, 5)] in
  let m := test_memory in
  let m1 := test_memory ++ [Address 1; Address 3; Address 5] in
  let o := Build_shared_references all [Int]
             (Build_shared_resources
                (wrap_with_reference all) (wrap_with_reference [Int])
                [(reference_wrapper Char, 6); (reference_wrapper (Pointer Int), 7);
                 (reference_wrapper (Pointer Char), 8)]) in
  ∃ x, (Char, x) ∈ vars
       ∧ references_get Char m1 o = Some x
       ∧ ∀ v,
           read (write m1 x v) x = Some v
           ∧ references_get Char (write m1 x v) o = Some x
           ∧ ∃ copy m3,
               shared_references_copy o (write m1 x v) = Some (copy, m3)
               ∧ references_get Char m3 copy = Some x
               ∧ read m3 x = Some v
               ∧ ∀ w,
                   read (write m3 x w) x = Some w
                   ∧ references_get Char (write m3 x w) o = Some x
                   ∧ references_get Char (write m3 x w) copy = Some x.
Proof.
  intros vars m m1 o.
  apply (shared_references_alias all [Int] vars m m1 o Char);
    [repeat constructor | reflexivity | reflexivity].
Defined.

(** * Further properties of the header *)

(** ** Type lists *)

(** X1: [contains] decides membership and [contains_all] decides inclusion
    of type lists; inclusion is reflexive and composes. *)
Theorem contains_all_inclusion (T U : list kind) :
  (∀ K, contains K U = true ↔ K ∈ U)
  ∧ (contains_all T U = true ↔ ∀ K, K ∈ T → K ∈ U)
  ∧ contains_all U U = true
  ∧ (∀ W, contains_all T U = true → contains_all U W = true →
          contains_all T W = true).
Proof.
  split_and!.
  - intros K. apply contains_elem_of.
  - apply contains_all_spec.
  - by apply contains_all_spec.
  - intros W. rewrite !contains_all_spec. auto.
Qed.

(** X2: [prepend<T>] on a type list names a type list exactly when [T] is
    not contained in it. *)
Theorem prepend_type_list (T : kind) (Types : list kind) :
  type_list_concept (prepend T Types)
  = negb (contains T Types) && type_list_concept Types.
Proof.
  unfold prepend. apply bool_eq_iff.
  rewrite andb_true_iff, negb_true_iff, contains_not_elem_of.
  rewrite !type_list_concept_NoDup. apply NoDup_cons.
Qed.

Lemma remove_types_filter List Exclude :
  remove_types List Exclude = filter (λ K, K ∉ Exclude) List.
Proof.
  rewrite remove_types_foldl. revert List.
  induction Exclude as [|Head Tail IH]; intros List; simpl.
  - induction List as [|K List IHL]; [done|].
    rewrite filter_cons_True by apply not_elem_of_nil. by rewrite <-IHL.
  - rewrite IH, remove_type_filter, list_filter_filter.
    apply list_filter_iff. intros K. rewrite not_elem_of_cons. tauto.
Qed.

(** X3: the effective list is the set difference: a kind is in
    [remove_types<List, Exclude...>] exactly when it is in [List] and is
    none of [Exclude...], whether or not the excluded kinds occur in
    [List]. *)
Theorem remove_types_difference (List Exclude : list kind) :
  remove_types List Exclude = filter (λ K, K ∉ Exclude) List
  ∧ ∀ K, contains K (remove_types List Exclude) = true
         ↔ contains K List = true ∧ contains K Exclude = false.
Proof.
  split; [apply remove_types_filter|].
  intros K. rewrite !contains_elem_of, contains_not_elem_of.
  apply elem_of_remove_types.
Qed.

Lemma remove_type_checked_Some List Exclude :
  NoDup List → remove_type_checked List Exclude = Some (remove_type List Exclude).
Proof.
  induction List as [|Head Tail IH]; [done|].
  intros [Hnot ND]%NoDup_cons. simpl. rewrite (IH ND). simpl.
  rewrite (proj2 (type_list_concept_NoDup _)); [done|].
  unfold prepend. apply NoDup_cons. split; [|by apply NoDup_remove_type].
  rewrite elem_of_remove_type. tauto.
Qed.

(** X4: on a [type_list], removing a type never forms an ill-formed
    [type_list]: every [prepend<Head>] that lines 184-186 name satisfies
    [no_duplicates], and the effective list is a [type_list] again. *)
Theorem remove_types_well_formed (List Exclude : list kind) :
  type_list_concept List = true →
  type_list_concept (remove_types List Exclude) = true
  ∧ ∀ E, remove_type_checked List E = Some (remove_type List E).
Proof.
  intros ND%type_list_concept_NoDup. split.
  - by apply type_list_concept_NoDup, NoDup_remove_types.
  - intros E. by apply remove_type_checked_Some.
Qed.

Lemma remove_types_well_formed_witness :
  type_list_concept (remove_types extra [Pointer (Pointer Char); Int]) = true
  ∧ ∀ E, remove_type_checked extra E = Some (remove_type extra E).
Proof. apply (remove_types_well_formed extra); reflexivity. Defined.

(** X5: the effective list depends on [Exclude...] as a set only: lists
    with the same elements, in any order and with any repetition, exclude
    the same, and excluding again changes nothing. *)
Theorem remove_types_exclude_as_set (List E E' : list kind) :
  contains_all E E' = true →
  contains_all E' E = true →
  remove_types List E = remove_types List E'
  ∧ remove_types (remove_types List E) E' = remove_types List E.
Proof.
  intros H1 H2.
  pose proof (proj1 (contains_all_spec _ _) H1) as H12.
  pose proof (proj1 (contains_all_spec _ _) H2) as H21.
  rewrite !remove_types_filter. split.
  - apply list_filter_iff. intros K. split; intros Hn Hin; apply Hn; auto.
  - rewrite list_filter_filter. apply list_filter_iff. intros K.
    split; [tauto|]. intros Hn. split; [|done]. intros Hin. apply Hn; auto.
Qed.

Lemma remove_types_exclude_as_set_witness :
  remove_types all [Int; Pointer Char; Int] = remove_types all [Pointer Char; Int]
  ∧ remove_types (remove_types all [Int; Pointer Char; Int]) [Pointer Char; Int]
    = remove_types all [Int; Pointer Char; Int].
Proof.
  apply (remove_types_exclude_as_set all [Int; Pointer Char; Int] [Pointer Char; Int]);
    reflexivity.
Defined.

(** X6: wrapping in [std::reference_wrapper] keeps a type list free of
    duplicates exactly when it was, keeps containment, and commutes with
    exclusion: the effective list of the wrapped list under the wrapped
    exclusions is the wrapped effective list. *)
Theorem wrap_with_reference_effective_list (List Exclude : list kind) :
  type_list_concept (wrap_with_reference List) = type_list_concept List
  ∧ (∀ K, contains (reference_wrapper K) (wrap_with_reference List) = contains K List)
  ∧ remove_types (wrap_with_reference List) (wrap_with_reference Exclude)
    = wrap_with_reference (remove_types List Exclude).
Proof.
  split_and!.
  - apply bool_eq_iff. rewrite !type_list_concept_NoDup.
    apply NoDup_wrap_with_reference.
  - intros K. apply bool_eq_iff. rewrite !contains_elem_of.
    apply elem_of_wrap_with_reference.
  - apply remove_types_wrap_with_reference.
Qed.

(** ** The storage *)

Section storage_more.

Context {V : Type}.
Implicit Types (args : pack V) (a b s other : storage V) (K T U : kind).

Lemma filled_by_unique f List s s' :
  filled_by f List s → filled_by f List s' → s = s'.
Proof.
  intros H. revert s'.
  induction H as [|K [K1 v1] List s [Hk Hf] _ IH]; intros s' H'.
  - by inversion H'.
  - inversion H' as [|? [K2 v2] ? s2 [Hk' Hf'] Hrest]; simplify_eq/=.
    f_equal. by apply IH.
Qed.

Lemma filled_by_ext f g List s :
  (∀ K, K ∈ List → f K = g K) → filled_by f List s → filled_by g List s.
Proof.
  intros Hfg H. induction H as [|K [K' v] List s [Hk Hf] _ IH]; [constructor|].
  constructor.
  - split; [done|]. rewrite <-Hfg; [done | left].
  - apply IH. intros K1 ?. apply Hfg. by right.
Qed.

Lemma filled_by_self s :
  NoDup (list_of s) → filled_by (λ K, storage_get K s) (list_of s) s.
Proof.
  induction s as [|[Head d] rest IH]; [constructor|].
  change (list_of ((Head, d) :: rest)) with (Head :: list_of rest).
  intros [Hnot ND]%NoDup_cons. constructor.
  - split; [done|]. by rewrite storage_get_cons, is_same_v_refl.
  - eapply filled_by_ext; [|by apply IH].
    intros K HK. rewrite storage_get_cons.
    destruct (is_same_v Head K) eqn:E; [|done].
    by apply is_same_v_true in E as ->.
Qed.

Lemma storage_from_args_accepts List args :
  is_Some (storage_from_args List args)
  ↔ (List = [] ∧ args = [])
    ∨ (List ≠ [] ∧ NoDup List ∧ NoDup (types_of args)
       ∧ ∀ K, K ∈ List → K ∈ types_of args).
Proof.
  split.
  - destruct List as [|Head [|Second Tail]].
    + simpl. destruct args; [by left | by intros [? ?]].
    + simpl. destruct (contains_concept Head (types_of args)) eqn:C;
        [|by intros [? ?]].
      apply contains_concept_spec in C as [ND Hin]. intros _. right.
      split_and!; [done | apply NoDup_singleton | done |].
      by intros K ->%list_elem_of_singleton.
    + rewrite storage_from_args_cons.
      destruct (contains_all_concept _ _) eqn:C; [|by intros [? ?]].
      apply contains_all_concept_spec in C as (? & ? & ?). intros _. by right.
  - intros [[-> ->]|(? & ? & ? & ?)]; [by eexists|].
    by apply storage_from_args_is_Some.
Qed.

Lemma storage_from_storage_cons Head Second Tail other :
  storage_from_storage (Head :: Second :: Tail) other
  = if bool_decide (list_of other = Head :: Second :: Tail) then Some other
    else if contains_all_concept (Head :: Second :: Tail) (list_of other) then
      data_ ← storage_get Head other;
      rest_ ← storage_from_storage (Second :: Tail) other;
      Some ((Head, data_) :: rest_)
    else None.
Proof. done. Qed.

Lemma storage_from_storage_other_type List other :
  list_of other ≠ List → storage_from_storage List other = None.
Proof.
  induction List as [|Head Tail IH]; intros Hne.
  - simpl. by rewrite bool_decide_eq_false_2.
  - destruct Tail as [|Second Tail].
    + simpl. by rewrite bool_decide_eq_false_2.
    + rewrite storage_from_storage_cons, bool_decide_eq_false_2 by done.
      destruct (contains_all_concept _ _) eqn:C; [|done].
      apply contains_all_concept_spec in C as (ND & _ & Hsub).
      rewrite IH; [by destruct (storage_get Head other)|].
      intros E. apply NoDup_cons in ND as [Hnot _]. apply Hnot.
      rewrite <-E. apply Hsub. left.
Qed.

End storage_more.

(** X7: a storage is initialised from one other storage only when the two
    have the same type list, and then it is a copy.  The constructor
    template of lines 389-394 admits a source with more kinds or another
    order, but its last [rest_(other)] initialises a single-slot storage,
    which has no constructor that takes a storage of another type. *)
Theorem storage_from_storage_same_type {V} (List : list kind) (other s : storage V) :
  storage_from_storage List other = Some s ↔ list_of other = List ∧ s = other.
Proof.
  destruct (decide (list_of other = List)) as [E|E].
  - assert (storage_from_storage List other = Some other) as ->.
    { destruct List as [|Head [|Second Tail]]; simpl;
        by rewrite bool_decide_eq_true_2. }
    split; [by intros [= <-] | by intros [_ ->]].
  - rewrite storage_from_storage_other_type by done. split; [done | by intros [? _]].
Qed.

(** X8: the constructor that combines two storages is accepted exactly for
    a target list that is not empty and whose every kind is in one of the
    two sources; the empty storage has no such constructor. *)
Theorem storage_merge_accepts {V} (List : list kind) (a b : storage V) :
  type_list_concept (list_of a) = true →
  type_list_concept (list_of b) = true →
  is_Some (storage_merge List a b)
  ↔ List ≠ [] ∧ contains_all List (list_of a ++ list_of b) = true.
Proof.
  intros NDa%type_list_concept_NoDup NDb%type_list_concept_NoDup.
  rewrite storage_merge_is_Some, contains_all_spec by done.
  by setoid_rewrite elem_of_app.
Qed.

Lemma storage_merge_accepts_witness :
  let a := [(Int, 1); (Char, 97)] in
  let b := [(Pointer Int, 5)] in
  (is_Some (storage_merge [Pointer Int; Int] a b)
   ↔ [Pointer Int; Int] ≠ [] ∧ contains_all [Pointer Int; Int] (list_of a ++ list_of b) = true)
  ∧ (is_Some (storage_merge [Pointer Char] a b)
     ↔ [Pointer Char] ≠ [] ∧ contains_all [Pointer Char] (list_of a ++ list_of b) = true).
Proof.
  intros a b.
  split; apply (storage_merge_accepts _ a b); reflexivity.
Defined.

Lemma storage_merge_self {V} (a b : storage V) :
  NoDup (list_of a) → a ≠ [] → storage_merge (list_of a) a b = Some a.
Proof.
  intros NDa Hne.
  assert (∀ K, K ∈ list_of a → get_head K a b = storage_get K a) as Hhead.
  { intros K HK%contains_elem_of. unfold get_head. by rewrite HK. }
  assert (∀ L, L ≠ [] → (∀ K, K ∈ L → K ∈ list_of a) →
               ∃ s, storage_merge L a b = Some s) as Hsome.
  { induction L as [|Head Tail IH]; [done|]. intros _ Hsub.
    assert (contains_concept Head (list_of a) = true) as Hc.
    { apply contains_concept_spec. split; [done|]. apply Hsub. left. }
    destruct (proj2 (storage_get_is_Some Head a) (Hsub Head ltac:(left))) as [d Hd].
    assert (get_head Head a b = Some d) as Hg.
    { rewrite Hhead; [done|]. apply Hsub. left. }
    destruct Tail as [|Second Tail].
    - simpl. rewrite Hc, Hg. by eexists.
    - rewrite storage_merge_cons, Hc, Hg.
      destruct IH as [r ->]; [done | | by eexists].
      intros K ?. apply Hsub. by right. }
  destruct (Hsome (list_of a)) as [s Hs]; [by destruct a | done |].
  rewrite Hs. f_equal.
  apply (filled_by_unique (λ K, storage_get K a) (list_of a)).
  - apply (filled_by_ext (λ K, get_head K a b)); [exact Hhead|].
    by apply storage_merge_filled.
  - by apply filled_by_self.
Qed.

(** X9: combining a non-empty storage [a] with any storage onto the type
    list of [a] gives [a] back: nothing of the second source is used. *)
Theorem storage_merge_onto_first {V} (a b : storage V) :
  type_list_concept (list_of a) = true →
  a ≠ [] →
  storage_merge (list_of a) a b = Some a.
Proof. intros NDa%type_list_concept_NoDup Hne. by apply storage_merge_self. Qed.

Lemma storage_merge_onto_first_witness :
  storage_merge (list_of [(Int, 1); (Char, 97)]) [(Int, 1); (Char, 97)] [(Int, 2); (Pointer Int, 5)]
  = Some [(Int, 1); (Char, 97)].
Proof.
  apply (storage_merge_onto_first [(Int, 1); (Char, 97)] [(Int, 2); (Pointer Int, 5)]);
    [reflexivity | discriminate].
Defined.

(** ** The owning container *)

Section shared_resources_more.

Context {V : Type}.
Implicit Types (args : pack V) (c other : shared_resources V) (K : kind).

Lemma shared_resources_from_args_is_Some List Exclude args :
  is_Some (shared_resources_from_args List Exclude args)
  ↔ NoDup List ∧ NoDup (types_of args)
    ∧ (∀ K, K ∈ remove_types List Exclude → K ∈ types_of args)
    ∧ (remove_types List Exclude = [] → args = []).
Proof.
  unfold shared_resources_from_args.
  destruct (type_list_concept List) eqn:HL; simpl.
  - apply type_list_concept_NoDup in HL.
    destruct (contains_all_concept _ _) eqn:C.
    + apply contains_all_concept_spec in C as (NDl & NDa & Hsub).
      destruct (storage_from_args _ _) as [s|] eqn:Hs; simpl.
      * split; [|by eexists]. intros _.
        destruct (proj1 (storage_from_args_accepts _ _) (mk_is_Some _ _ Hs))
          as [[? ->]|(? & _)]; by split_and!.
      * split; [by intros [? ?]|]. intros (_ & _ & _ & Hnil).
        assert (is_Some (storage_from_args (remove_types List Exclude) args)) as [? ?];
          [|congruence].
        apply storage_from_args_accepts.
        destruct (decide (remove_types List Exclude = [])) as [E|E];
          [left; by auto | by right].
    + split; [by intros [? ?]|]. intros (_ & NDa & Hsub & _).
      assert (contains_all_concept (remove_types List Exclude) (types_of args) = true);
        [|congruence].
      apply contains_all_concept_spec. split_and!; [|done..].
      by apply NoDup_remove_types.
  - split; [by intros [? ?]|]. intros [ND _].
    apply type_list_concept_NoDup in ND. congruence.
Qed.

Lemma create_storage_NoDup (list : list kind) (other : storage V) args s :
  create_storage list other args = Some s → NoDup (types_of args).
Proof.
  unfold create_storage.
  intros (add & Hadd & _)%bind_Some.
  destruct (proj1 (storage_from_args_accepts _ _) (mk_is_Some _ _ Hadd))
    as [[-> _]|(_ & ? & _)]; [constructor | done].
Qed.

Lemma shared_resources_extend_inv List Exclude other args c :
  shared_resources_extend List Exclude other args = Some c →
  type_list_concept List = true ∧ NoDup (types_of args).
Proof.
  unfold shared_resources_extend.
  destruct (type_list_concept List); [|done].
  intros (s & Hs & _)%bind_Some. split; [done|]. by eapply create_storage_NoDup.
Qed.

Lemma shared_resources_from_other_inv List Exclude other c :
  shared_resources_from_other List Exclude other = Some c →
  type_list_concept List = true.
Proof.
  unfold shared_resources_from_other, shared_resources_convert.
  destruct (type_list_concept List) eqn:HL; [done|]. simpl.
  unfold shared_resources_extend. by rewrite HL.
Qed.

(** What every way of initialising a container from another one returns. *)
Lemma shared_resources_init_inv List Exclude other args c :
  sr_wf other →
  shared_resources_init List Exclude other args = Some c →
  sr_wf c ∧ sr_List c = List ∧ sr_Exclude c = Exclude
  ∧ ∀ K, K ∈ remove_types List Exclude →
      (K ∈ sr_list other ∨ K ∈ types_of args)
      ∧ shared_resources_get K c
        = if contains K (sr_list other) then shared_resources_get K other
          else get K args.
Proof.
  intros Ho Hc.
  assert (shared_resources_from_other List Exclude other = Some c ∧ args = []
          ∨ shared_resources_extend List Exclude other args = Some c) as [[Hf ->]|He].
  { destruct args; [by left | by right]. }
  - pose proof (shared_resources_from_other_inv _ _ _ _ Hf) as HL.
    destruct (shared_resources_from_other_spec List Exclude other Ho HL) as [Hsome Hval].
    destruct (Hval c Hf) as (? & ? & ? & Hget). split_and!; [done..|].
    intros K HK.
    assert (K ∈ sr_list other) as Hin.
    { destruct (proj1 Hsome (mk_is_Some _ _ Hf)) as [E|[_ Hsub]]; [by rewrite <-E | auto]. }
    split; [by left|]. rewrite (Hget K HK).
    by rewrite (proj2 (contains_elem_of _ _) Hin).
  - destruct (shared_resources_extend_inv _ _ _ _ _ He) as [HL NDa].
    destruct (shared_resources_extend_spec List Exclude other args Ho HL NDa)
      as [Hsome Hval].
    destruct (Hval c He) as (? & ? & ? & Hget). split_and!; [done..|].
    intros K HK. split; [|by apply Hget].
    by apply (proj1 Hsome (mk_is_Some _ _ He)).
Qed.

End shared_resources_more.

(** X10: [get<K>()] of a container is available exactly for the kinds of
    [List] that are not among [Exclude...]; for any other kind, an excluded
    one included, no [get] is viable. *)
Theorem shared_resources_get_available {V} (c : shared_resources V) (K : kind) :
  sr_wf c →
  is_Some (shared_resources_get K c)
  ↔ contains K (sr_List c) = true ∧ contains K (sr_Exclude c) = false.
Proof.
  intros [_ Hlist]. unfold shared_resources_get.
  rewrite storage_get_is_Some, Hlist, !contains_elem_of, contains_not_elem_of.
  apply elem_of_remove_types.
Qed.

Lemma shared_resources_get_available_witness :
  let c := Build_shared_resources all [Int] [(Char, 97); (Pointer Int, 20); (Pointer Char, 30)] in
  (is_Some (shared_resources_get Char c)
   ↔ contains Char (sr_List c) = true ∧ contains Char (sr_Exclude c) = false)
  ∧ (is_Some (shared_resources_get Int c)
     ↔ contains Int (sr_List c) = true ∧ contains Int (sr_Exclude c) = false).
Proof.
  intros c. split; apply (shared_resources_get_available c); split; reflexivity.
Defined.

(** X11: the constructor from arguments is accepted exactly when [List] and
    the argument types are free of duplicates and the arguments cover the
    effective list; arguments of further kinds are accepted and dropped,
    except that an empty effective list takes no argument at all. *)
Theorem shared_resources_from_args_accepts {V}
    (List Exclude : list kind) (args : pack V) :
  is_Some (shared_resources_from_args List Exclude args)
  ↔ type_list_concept List = true
    ∧ type_list_concept (types_of args) = true
    ∧ contains_all (remove_types List Exclude) (types_of args) = true
    ∧ (remove_types List Exclude = [] → args = []).
Proof.
  rewrite shared_resources_from_args_is_Some.
  by rewrite !type_list_concept_NoDup, contains_all_spec.
Qed.

(** X12: every constructor returns a container whose storage has one slot
    for each kind of the effective list, in the order of that list. *)
Theorem shared_resources_constructors_well_formed {V}
    (List Exclude : list kind) (other : shared_resources V) (args : pack V)
    (c : shared_resources V) :
  sr_wf other →
  shared_resources_from_args List Exclude args = Some c
  ∨ shared_resources_init List Exclude other args = Some c →
  sr_wf c ∧ sr_List c = List ∧ sr_Exclude c = Exclude
  ∧ list_of (data_ c) = remove_types List Exclude
  ∧ length (data_ c) = length (remove_types List Exclude).
Proof.
  intros Ho Hc.
  assert (sr_wf c ∧ sr_List c = List ∧ sr_Exclude c = Exclude) as (Hwf & HL & HE).
  { destruct Hc as [Hc|Hc].
    - apply shared_resources_from_args_inv in Hc. tauto.
    - apply shared_resources_init_inv in Hc; [tauto | done]. }
  assert (list_of (data_ c) = remove_types List Exclude) as Hlist.
  { rewrite (proj2 Hwf). unfold sr_list. by rewrite HL, HE. }
  split_and!; [done..|].
  rewrite <-Hlist. unfold list_of. by rewrite length_fmap.
Qed.

Lemma shared_resources_constructors_well_formed_witness :
  let other := Build_shared_resources all [Int]
                 [(Char, 97); (Pointer Int, 20); (Pointer Char, 30)] in
  let c := Build_shared_resources all [Pointer Char]
             [(Int, 1); (Char, 97); (Pointer Int, 20)] in
  sr_wf c ∧ sr_List c = all ∧ sr_Exclude c = [Pointer Char]
  ∧ list_of (data_ c) = remove_types all [Pointer Char]
  ∧ length (data_ c) = length (remove_types all [Pointer Char]).
Proof.
  intros other c.
  apply (shared_resources_constructors_well_formed
           all [Pointer Char] other [(Int, 1)] c);
    [split; reflexivity | right; reflexivity].
Defined.

(** X13: a container made from one other container holds, for every kind
    of its effective list, what the source holds, and nothing for the kinds
    that were dropped. *)
Theorem shared_resources_from_other_values {V}
    (List Exclude : list kind) (other c : shared_resources V) (K : kind) :
  sr_wf other →
  shared_resources_from_other List Exclude other = Some c →
  shared_resources_get K c
  = (if contains K (remove_types List Exclude) then shared_resources_get K other
     else None)
  ∧ (contains K (remove_types List Exclude) = true →
     is_Some (shared_resources_get K other)).
Proof.
  intros Ho Hc.
  pose proof (shared_resources_from_other_inv _ _ _ _ Hc) as HL.
  destruct (shared_resources_from_other_spec List Exclude other Ho HL) as [Hsome Hval].
  destruct (Hval c Hc) as ([_ Hlist] & HcL & HcE & Hget).
  unfold sr_list in Hlist. rewrite HcL, HcE in Hlist.
  destruct (contains K (remove_types List Exclude)) eqn:C.
  - apply contains_elem_of in C. split; [by apply Hget|]. intros _.
    unfold shared_resources_get. apply storage_get_is_Some. rewrite (proj2 Ho).
    destruct (proj1 Hsome (mk_is_Some _ _ Hc)) as [E|[_ Hsub]]; [by rewrite <-E | auto].
  - apply contains_not_elem_of in C. split; [|done].
    apply eq_None_not_Some. unfold shared_resources_get.
    by rewrite storage_get_is_Some, Hlist.
Qed.

Lemma shared_resources_from_other_values_witness :
  let other := Build_shared_resources all [Int]
                 [(Char, 97); (Pointer Int, 20); (Pointer Char, 30)] in
  let c := Build_shared_resources all [Int; Pointer Int]
             [(Char, 97); (Pointer Char, 30)] in
  (shared_resources_get (Pointer Char) c
   = (if contains (Pointer Char) (remove_types all [Int; Pointer Int])
      then shared_resources_get (Pointer Char) other else None)
   ∧ (contains (Pointer Char) (remove_types all [Int; Pointer Int]) = true →
      is_Some (shared_resources_get (Pointer Char) other)))
  ∧ (shared_resources_get (Pointer Int) c
     = (if contains (Pointer Int) (remove_types all [Int; Pointer Int])
        then shared_resources_get (Pointer Int) other else None)
     ∧ (contains (Pointer Int) (remove_types all [Int; Pointer Int]) = true →
        is_Some (shared_resources_get (Pointer Int) other))).
Proof.
  intros other c.
  split; apply (shared_resources_from_other_values all [Int; Pointer Int] other c);
    (split; reflexivity) || reflexivity.
Defined.

(** X14: between containers with the same non-empty effective list, the
    converting constructor and the constructor with additional arguments,
    given none, build the same container, so that it does not matter which
    of the two overload resolution selects. *)
Theorem shared_resources_overloads_agree {V}
    (List Exclude : list kind) (other : shared_resources V) :
  sr_wf other →
  type_list_concept List = true →
  remove_types List Exclude = sr_list other →
  sr_list other ≠ [] →
  shared_resources_extend List Exclude other []
  = shared_resources_convert List Exclude other
  ∧ is_Some (shared_resources_convert List Exclude other).
Proof.
  intros Ho HL E Hne.
  unfold shared_resources_extend, shared_resources_convert, create_storage.
  rewrite HL, bool_decide_eq_true_2 by done. simpl.
  rewrite E, <-(proj2 Ho), storage_merge_self; [by eauto | by apply sr_data_NoDup |].
  intros Hnil. apply Hne. by rewrite <-(proj2 Ho), Hnil.
Qed.

Lemma shared_resources_overloads_agree_witness :
  let other := Build_shared_resources all [Int]
                 [(Char, 97); (Pointer Int, 20); (Pointer Char, 30)] in
  shared_resources_extend [Char; Pointer Int; Pointer Char; Class 0] [Class 0] other []
  = shared_resources_convert [Char; Pointer Int; Pointer Char; Class 0] [Class 0] other
  ∧ is_Some (shared_resources_convert
               [Char; Pointer Int; Pointer Char; Class 0] [Class 0] other).
Proof.
  intros other.
  apply (shared_resources_overloads_agree
           [Char; Pointer Int; Pointer Char; Class 0] [Class 0] other);
    [split; reflexivity | reflexivity | reflexivity | discriminate].
Defined.

(** X15: the constructor from a container and additional arguments is
    accepted exactly when [List] and the additional argument types are free
    of duplicates, the effective list is not empty, and each of its kinds
    is stored by the container or supplied by an argument. *)
Theorem shared_resources_extend_accepts {V}
    (List Exclude : list kind) (other : shared_resources V) (args : pack V) :
  sr_wf other →
  is_Some (shared_resources_extend List Exclude other args)
  ↔ type_list_concept List = true
    ∧ type_list_concept (types_of args) = true
    ∧ remove_types List Exclude ≠ []
    ∧ contains_all (remove_types List Exclude) (sr_list other ++ types_of args) = true.
Proof.
  intros Ho. rewrite contains_all_spec. setoid_rewrite elem_of_app.
  rewrite (type_list_concept_NoDup (types_of args)).
  destruct (type_list_concept List) eqn:HL.
  - destruct (decide (NoDup (types_of args))) as [NDa|NDa].
    + destruct (shared_resources_extend_spec List Exclude other args Ho HL NDa)
        as [Hsome _].
      rewrite Hsome. tauto.
    + split; [|tauto]. intros [c Hc].
      by apply shared_resources_extend_inv in Hc as [_ ?].
  - split; [|by intros [? _]]. intros [c Hc].
    apply shared_resources_extend_inv in Hc as [? _]. congruence.
Qed.

Lemma shared_resources_extend_accepts_witness :
  let other := Build_shared_resources all [Int]
                 [(Char, 97); (Pointer Int, 20); (Pointer Char, 30)] in
  (is_Some (shared_resources_extend all [] other [(Int, 1)])
   ↔ type_list_concept all = true
     ∧ type_list_concept (types_of [(Int, 1)]) = true
     ∧ remove_types all [] ≠ []
     ∧ contains_all (remove_types all []) (sr_list other ++ types_of [(Int, 1)]) = true)
  ∧ (is_Some (shared_resources_extend all [] other [(Class 0, 1)])
     ↔ type_list_concept all = true
       ∧ type_list_concept (types_of [(Class 0, 1)]) = true
       ∧ remove_types all [] ≠ []
       ∧ contains_all (remove_types all []) (sr_list other ++ types_of [(Class 0, 1)]) = true).
Proof.
  intros other. split; apply (shared_resources_extend_accepts all [] other);
    split; reflexivity.
Defined.

(** ** The reference container *)

Lemma storage_get_Some_elem_of {V} U (s : storage V) v :
  storage_get U s = Some v → (U, v) ∈ s.
Proof.
  induction s as [|[Head d] rest IH]; [done|].
  rewrite storage_get_cons. destruct (is_same_v Head U) eqn:E.
  - apply is_same_v_true in E as ->. intros [= ->]. left.
  - intros ?. right. auto.
Qed.

Lemma storage_get_elem_of {V} U (s : storage V) v :
  NoDup (list_of s) → (U, v) ∈ s → storage_get U s = Some v.
Proof.
  induction s as [|[Head d] rest IH]; [by intros _ ?%elem_of_nil|].
  change (list_of ((Head, d) :: rest)) with (Head :: list_of rest).
  intros [Hnot ND]%NoDup_cons Hin. rewrite storage_get_cons.
  apply elem_of_cons in Hin as [Heq|Hin].
  - inversion Heq; subst. by rewrite is_same_v_refl.
  - destruct (is_same_v Head U) eqn:E; [|auto].
    apply is_same_v_true in E as ->. destruct Hnot.
    apply elem_of_types_of. eauto.
Qed.

Lemma elem_of_wrap_args K v (vars : pack loc) :
  (K, v) ∈ wrap_args vars
  ↔ ∃ T x, K = reference_wrapper T ∧ v = Address x ∧ (T, x) ∈ vars.
Proof.
  unfold wrap_args. rewrite list_elem_of_fmap. split.
  - intros [[T x] [[= -> ->] ?]]. by exists T, x.
  - intros (T & x & -> & -> & ?). by exists (T, x).
Qed.


Lemma pack_value_unique {V} K (args : pack V) v v' :
  NoDup (types_of args) → (K, v) ∈ args → (K, v') ∈ args → v = v'.
Proof.
  intros ND H1 H2.
  assert (get K args = Some v) as G1 by by apply get_Some.
  assert (get K args = Some v') as G2 by by apply get_Some.
  congruence.
Qed.

Lemma sf_wf_list r :
  sf_wf r → list_of (data_ (sf_data r)) = wrap_with_reference (sf_list r).
Proof.
  intros (_ & [_ Hlist] & HL & HE & _). rewrite Hlist. unfold sr_list, sf_list.
  by rewrite HL, HE, remove_types_wrap_with_reference.
Qed.

Lemma shared_references_get_is_Some r K :
  sf_wf r → is_Some (shared_references_get K r) ↔ K ∈ sf_list r.
Proof.
  intros Hr. pose proof (sf_wf_list r Hr) as Hlist.
  destruct Hr as (_ & _ & _ & _ & Haddr).
  rewrite <-elem_of_wrap_with_reference, <-Hlist, <-storage_get_is_Some.
  unfold shared_references_get, shared_resources_get.
  destruct (storage_get _ _) as [w|] eqn:Hw; simpl; [|done].
  apply storage_get_Some_elem_of in Hw.
  eapply Forall_forall in Haddr as [l Hl]; [|exact Hw]. simpl in Hl. subst w.
  split; by eexists.
Qed.

Lemma shared_references_from_args_inv List Exclude (vars : pack loc) r :
  shared_references_from_args List Exclude vars = Some r →
  NoDup (types_of vars) ∧ sf_List r = List ∧ sf_Exclude r = Exclude ∧ sf_wf r.
Proof.
  unfold shared_references_from_args, shared_references_class.
  destruct (type_list_concept List) eqn:HL; [|done].
  destruct (type_list_concept Exclude) eqn:HE; [|done]. simpl.
  destruct (contains_all_concept _ _) eqn:Hc; [|done].
  apply contains_all_concept_spec in Hc as (NDl & NDa & Hsub).
  intros (c & Hc & [= <-])%bind_Some.
  pose proof Hc as (NDw & Hwf & HcL & HcE & Hget)%shared_resources_from_args_inv.
  split_and!; [done..|]. split_and!; [done..|]. simpl.
  apply Forall_forall. intros [K v] Hin. simpl.
  assert (storage_get K (data_ c) = Some v) as Hs.
  { apply storage_get_elem_of; [by apply sr_data_NoDup | done]. }
  assert (K ∈ remove_types (wrap_with_reference List) (wrap_with_reference Exclude)) as HK.
  { destruct Hwf as [_ Hlist]. unfold sr_list in Hlist. rewrite HcL, HcE in Hlist.
    rewrite <-Hlist. apply storage_get_is_Some. by eexists. }
  destruct (Hget K HK) as [_ Hg]. unfold shared_resources_get in Hg.
  rewrite Hs in Hg. symmetry in Hg.
  apply get_Some in Hg as [_ (T & x & _ & -> & _)%elem_of_wrap_args]. by eexists.
Qed.


(** X17: [get<K>()] of a reference container made from variables is
    defined exactly for the kinds of the effective list, and is then the
    variable of type [K] that was passed in. *)
Theorem shared_references_get_variable
    (List Exclude : list kind) (vars : pack loc) (r : shared_references value)
    (K : kind) (x : loc) :
  shared_references_from_args List Exclude vars = Some r →
  shared_references_get K r = Some x
  ↔ contains K (remove_types List Exclude) = true ∧ (K, x) ∈ vars.
Proof.
  intros Hr. rewrite contains_elem_of.
  pose proof (shared_references_from_args_inv _ _ _ _ Hr) as (NDa & HL & HE & Hwf).
  split.
  - intros Hget.
    assert (K ∈ remove_types List Exclude) as HK.
    { rewrite <-HL, <-HE. apply (shared_references_get_is_Some r K Hwf). by eexists. }
    split; [done|].
    destruct (shared_references_from_args_get _ _ _ _ K Hr HK)
      as (_ & _ & x' & Hx' & Hget').
    congruence.
  - intros [HK Hx].
    destruct (shared_references_from_args_get _ _ _ _ K Hr HK)
      as (_ & _ & x' & Hx' & Hget').
    by rewrite (pack_value_unique K vars x x').
Qed.

Lemma shared_references_get_variable_witness :
  let vars := [(Pointer Int, 3); (Char, 1); (Pointer Char, 5)] in
  let r := Build_shared_references all [Int]
             (Build_shared_resources
                (wrap_with_reference all) (wrap_with_reference [Int])
                [(reference_wrapper Char, Address 1);
                 (reference_wrapper (Pointer Int), Address 3);
                 (reference_wrapper (Pointer Char), Address 5)]) in
  (shared_references_get Char r = Some 1
   ↔ contains Char (remove_types all [Int]) = true ∧ (Char, 1) ∈ vars)
  ∧ (shared_references_get Int r = Some 0
     ↔ contains Int (remove_types all [Int]) = true ∧ (Int, 0) ∈ vars).
Proof.
  intros vars r.
  split; apply (shared_references_get_variable all [Int] vars r); reflexivity.
Defined.

Lemma shared_resources_init_NoDup {V} List Exclude (other : shared_resources V) args c :
  shared_resources_init List Exclude other args = Some c → NoDup (types_of args).
Proof.
  destruct args as [|arg args]; [constructor|].
  intros Hc. by apply shared_resources_extend_inv in Hc as [_ ?].
Qed.

Lemma shared_references_extend_inv List Exclude other (vars : pack loc) r :
  sf_wf other →
  shared_references_extend List Exclude other vars = Some r →
  NoDup (types_of vars) ∧ sf_List r = List ∧ sf_Exclude r = Exclude ∧ sf_wf r
  ∧ ∀ K, K ∈ remove_types List Exclude →
      (K ∈ sf_list other ∨ K ∈ types_of vars)
      ∧ shared_resources_get (reference_wrapper K) (sf_data r)
        = if contains K (sf_list other)
          then shared_resources_get (reference_wrapper K) (sf_data other)
          else get (reference_wrapper K) (wrap_args vars).
Proof.
  intros Ho. pose proof (sf_wf_list other Ho) as Holist.
  destruct Ho as (_ & Hod & HoL & HoE & Hoaddr).
  unfold shared_references_extend, shared_references_class.
  destruct (type_list_concept List) eqn:HL; [|done].
  destruct (type_list_concept Exclude) eqn:HE; [|done]. simpl.
  intros (c & Hc & [= <-])%bind_Some. simpl.
  pose proof (shared_resources_init_NoDup _ _ _ _ _ Hc) as NDw.
  rewrite types_of_wrap_args, NoDup_wrap_with_reference in NDw.
  destruct (shared_resources_init_inv _ _ _ _ _ Hod Hc) as (Hwf & HcL & HcE & Hget).
  rewrite remove_types_wrap_with_reference in Hget.
  assert (sr_list (sf_data other) = wrap_with_reference (sf_list other)) as Hsrl.
  { by rewrite <-(proj2 Hod). }
  assert (∀ K, K ∈ remove_types List Exclude →
      (K ∈ sf_list other ∨ K ∈ types_of vars)
      ∧ shared_resources_get (reference_wrapper K) c
        = if contains K (sf_list other)
          then shared_resources_get (reference_wrapper K) (sf_data other)
          else get (reference_wrapper K) (wrap_args vars)) as Hget'.
  { intros K HK.
    destruct (Hget (reference_wrapper K)) as [Hin Hg].
    { by apply elem_of_wrap_with_reference. }
    rewrite Hsrl, types_of_wrap_args, !elem_of_wrap_with_reference in Hin.
    split; [done|]. rewrite Hg, Hsrl.
    assert (contains (reference_wrapper K) (wrap_with_reference (sf_list other))
            = contains K (sf_list other)) as ->; [|done].
    apply bool_eq_iff. rewrite !contains_elem_of.
    apply elem_of_wrap_with_reference. }
  split_and!; [done..| |done]. split_and!; [done..|]. simpl.
  apply Forall_forall. intros [K' v] Hin. simpl.
  assert (storage_get K' (data_ c) = Some v) as Hs.
  { apply storage_get_elem_of; [by apply sr_data_NoDup | done]. }
  assert (K' ∈ wrap_with_reference (remove_types List Exclude)) as HK'.
  { destruct Hwf as [_ Hlist]. unfold sr_list in Hlist.
    rewrite HcL, HcE, remove_types_wrap_with_reference in Hlist.
    rewrite <-Hlist. apply storage_get_is_Some. by eexists. }
  apply list_elem_of_fmap in HK' as (K & -> & HK).
  destruct (Hget' K HK) as [_ Hg]. unfold shared_resources_get in Hg.
  rewrite Hs in Hg. destruct (contains K (sf_list other)).
  - symmetry in Hg. apply storage_get_Some_elem_of in Hg.
    eapply Forall_forall in Hoaddr; [|exact Hg]. done.
  - symmetry in Hg.
    apply get_Some in Hg as [_ (T & x & _ & -> & _)%elem_of_wrap_args]. by eexists.
Qed.

(** X18: both constructors of the reference container return a container
    whose [data_] is a container over the wrapped lists with an address in
    every slot, and whose [get<K>()] is available exactly for the kinds of
    the effective list. *)
Theorem shared_references_constructors_well_formed
    (List Exclude : list kind) (other : shared_references value) (vars : pack loc)
    (r : shared_references value) (K : kind) :
  sf_wf other →
  shared_references_from_args List Exclude vars = Some r
  ∨ shared_references_extend List Exclude other vars = Some r →
  sf_wf r ∧ sf_List r = List ∧ sf_Exclude r = Exclude
  ∧ (is_Some (shared_references_get K r)
     ↔ contains K (remove_types List Exclude) = true).
Proof.
  intros Ho Hr.
  assert (sf_wf r ∧ sf_List r = List ∧ sf_Exclude r = Exclude) as (Hwf & HL & HE).
  { destruct Hr as [Hr|Hr].
    - apply shared_references_from_args_inv in Hr. tauto.
    - apply shared_references_extend_inv in Hr; [tauto | done]. }
  split_and!; [done..|].
  rewrite (shared_references_get_is_Some r K Hwf), contains_elem_of.
  unfold sf_list. by rewrite HL, HE.
Qed.

Lemma shared_references_constructors_well_formed_witness :
  let other := Build_shared_references all [Int]
                 (Build_shared_resources
                    (wrap_with_reference all) (wrap_with_reference [Int])
                    [(reference_wrapper Char, Address 1);
                     (reference_wrapper (Pointer Int), Address 3);
                     (reference_wrapper (Pointer Char), Address 5)]) in
  let r := Build_shared_references all []
             (Build_shared_resources
                (wrap_with_reference all) (wrap_with_reference [])
                [(reference_wrapper Int, Address 0);
                 (reference_wrapper Char, Address 1);
                 (reference_wrapper (Pointer Int), Address 3);
                 (reference_wrapper (Pointer Char), Address 5)]) in
  sf_wf r ∧ sf_List r = all ∧ sf_Exclude r = []
  ∧ (is_Some (shared_references_get Int r)
     ↔ contains Int (remove_types all []) = true).
Proof.
  intros other r.
  apply (shared_references_constructors_well_formed all [] other [(Int, 0)] r Int).
  - split_and!; [reflexivity | split; reflexivity | reflexivity | reflexivity |].
    repeat constructor; by eexists.
  - right. reflexivity.
Defined.



(** ** Pointers held by an owning container *)

Lemma shared_resources_declare_inv List Exclude (vars : pack loc) m o m1 K a :
  shared_resources_declare List Exclude vars m = Some (o, m1) →
  shared_resources_get K o = Some a →
  length m ≤ a < length m1
  ∧ (∀ l, l < length m → read m1 l = read m l)
  ∧ (∀ x, (K, x) ∈ vars → read m1 a = read m x).
Proof.
  unfold shared_resources_declare.
  intros (args & Hload & (c & Hc & Hnew)%bind_Some)%bind_Some Hget.
  injection Hnew as Ho_eq <-.
  unfold shared_resources_get in Hget. rewrite <-Ho_eq in Hget. simpl in Hget.
  apply shared_resources_from_args_inv in Hc as (NDa & [_ Hlist] & HcL & HcE & Hg).
  assert (K ∈ remove_types List Exclude) as HK.
  { unfold sr_list in Hlist. rewrite HcL, HcE in Hlist. rewrite <-Hlist.
    rewrite <-(place_list_of (length m)). apply storage_get_is_Some. by eexists. }
  apply storage_get_place in Hget as [Hrange Hval].
  rewrite length_app, length_fmap. split_and!; [lia | lia | |].
  - intros l Hl. unfold read. by apply lookup_app_l.
  - intros x Hx. unfold read at 1. rewrite lookup_app_r, Hval by lia.
    destruct (load_inv _ _ _ Hload) as [Ht Hv].
    destruct (Hv K x Hx) as (w & -> & Hw).
    destruct (Hg K HK) as [_ HgK]. unfold shared_resources_get in HgK.
    rewrite HgK. by apply get_Some.
Qed.

(** X20: a container seeded with a pointer variable holds a copy of the
    pointer, not of what it points to: an assignment through the pointer
    that [get<T*>()] returns changes the object the original pointer points
    to, and leaves both pointers as they were. *)
Theorem shared_resources_pointer_shared
    (List Exclude : list kind) (vars : pack loc) (m m1 : memory)
    (o : shared_resources loc) (T : kind) (x a p : loc) (v : value) :
  shared_resources_declare List Exclude vars m = Some (o, m1) →
  (Pointer T, x) ∈ vars →
  read m x = Some (Address p) →
  p < length m →
  p ≠ x →
  shared_resources_get (Pointer T) o = Some a →
  read m1 a = Some (Address p)
  ∧ read (write m1 p v) p = Some v
  ∧ read (write m1 p v) a = Some (Address p)
  ∧ read (write m1 p v) x = Some (Address p).
Proof.
  intros Hdecl Hx Hp Hlt Hne Hget.
  destruct (shared_resources_declare_inv _ _ _ _ _ _ _ _ Hdecl Hget)
    as (Hrange & Hold & Hseed).
  assert (x < length m) as Hxlt by (by eapply lookup_lt_Some).
  split_and!.
  - by rewrite (Hseed x Hx).
  - apply read_write_eq. lia.
  - rewrite read_write_ne by lia. by rewrite (Hseed x Hx).
  - rewrite read_write_ne by done. by rewrite Hold.
Qed.

Lemma shared_resources_pointer_shared_witness :
  let vars := [(Pointer Int, 3); (Char, 1); (Pointer Char, 5); (Int, 0)] in
  let m1 := test_memory ++ [Scalar 1; Scalar 97; Address 2; Address 4] in
  let v := Scalar 3 in
  read m1 8 = Some (Address 2)
  ∧ read (write m1 2 v) 2 = Some v
  ∧ read (write m1 2 v) 8 = Some (Address 2)
  ∧ read (write m1 2 v) 3 = Some (Address 2).
Proof.
  intros vars m1 v.
  apply (shared_resources_pointer_shared all [] vars test_memory m1
           (Build_shared_resources all []
              [(Int, 6); (Char, 7); (Pointer Int, 8); (Pointer Char, 9)])
           Int 3 8 2 v);
    [reflexivity | | reflexivity | simpl; lia | lia | reflexivity].
  apply list_elem_of_here.
Defined.
